(** * The SDR receive pipeline of Sniffle (python_cli/sniffle/sniffle_sdr.py)

    A shallow embedding of the [SniffleSDR] class: session configuration,
    the wideband channel plan, the burst-to-packet conversion
    ([process_burst]), the body of the streaming worker and its
    cancellation.

    Conventions.
    - Python [int] is [Z]; Python [float] is modelled by the exact
      rationals [Q] (no rounding, no NaN or infinities); [bytes] is
      [list byte]; [None]-able values are [option]s.  Where the source
      rounds, as in the times of lines 190 and 234 and the microseconds cut
      from them on line 243, the model carries the exact value.
    - Code that can raise returns an [outcome]; methods that mutate [self]
      live in the state-and-exception monad [Cmd].
    - The signal-processing primitives, the whitening and CRC routines, the
      channel tables, the channelizer and the link-layer decoder are modules
      of the package that this file does not embed; they are the fields of
      the class [Collaborators]. *)

From Stdlib Require Import ZArith QArith Qround String.
From Stdlib Require Import Strings.Byte.
From stdpp Require Import base list option.

Open Scope Z_scope.

(** ** Python values and operations *)

Module Py.

Inductive exn : Type :=
| ValueError (msg : string)
| UsageError (msg : string)
| AttributeError (msg : string)
| IndexError
| ZeroDivisionError
| Exception (msg : string).

Inductive outcome (A : Type) : Type :=
| Ok (a : A)
| Raised (e : exn).
Arguments Ok {A} a.
Arguments Raised {A} e.

(** [int(x)] on a float: truncation toward zero. *)
Definition int (x : Q) : Z := Z.quot (Qnum x) (Z.pos (Qden x)).

Definition len {A} (l : list A) : Z := Z.of_nat (length l).

(** The position that a Python index denotes in a sequence of [n] items:
    negative indices count from the end; [None] when out of range. *)
Definition index_position (n i : Z) : option nat :=
  if (0 <=? i) && (i <? n) then Some (Z.to_nat i)
  else if (- n <=? i) && (i <? 0) then Some (Z.to_nat (i + n))
  else None.

Definition position {A} (l : list A) (i : Z) : option nat :=
  index_position (len l) i.

(** [l[i]] *)
Definition getitem {A} (l : list A) (i : Z) : outcome A :=
  match position l i with
  | Some n => match l !! n with Some a => Ok a | None => Raised IndexError end
  | None => Raised IndexError
  end.

(** [l[i] = v] *)
Definition setitem {A} (l : list A) (i : Z) (v : A) : outcome (list A) :=
  match position l i with
  | Some n => Ok (<[n := v]> l)
  | None => Raised IndexError
  end.

(** Slice bounds are clamped to the sequence, negative ones counted from
    the end. *)
Definition clamp {A} (l : list A) (i : Z) : Z :=
  if i <? 0 then Z.max 0 (i + len l) else Z.min i (len l).

(** [l[lo:hi]] *)
Definition slice {A} (l : list A) (lo hi : Z) : list A :=
  take (Z.to_nat (clamp l hi - clamp l lo)) (drop (Z.to_nat (clamp l lo)) l).

(** [l[lo:]] *)
Definition slice_from {A} (l : list A) (lo : Z) : list A :=
  drop (Z.to_nat (clamp l lo)) l.

(** [range(lo, hi)] *)
Definition range (lo hi : Z) : list Z := seqZ lo (hi - lo).

(** A byte read as the integer 0..255 that indexing a [bytes] yields. *)
Definition byte_val (b : byte) : Z := Z.of_N (Byte.to_N b).

(** Truthiness of an optional [bytes]: [None] and [b''] are false. *)
Definition truthy (o : option (list byte)) : bool :=
  match o with Some (_ :: _) => true | _ => false end.

Definition Qltb (a b : Q) : bool := negb (Qle_bool b a).

(** [a / b] on floats: a zero divisor raises. *)
Definition div (a b : Q) : outcome Q :=
  if Qeq_bool b 0 then Raised ZeroDivisionError else Ok (a / b)%Q.

(** [a // b] on floats, for a non-zero constant [b]. *)
Definition floordiv (a b : Q) : Q := inject_Z (Qfloor (a / b)).

End Py.

Import Py.

#[global] Instance outcome_ret : MRet outcome := fun A a => Ok a.
#[global] Instance outcome_bind : MBind outcome := fun A B f m =>
  match m with Ok a => f a | Raised e => Raised e end.
#[global] Instance byte_eq_dec : EqDecision byte := Byte.byte_eq_dec.

(** ** Constants of the package (sniffle/constants.py) *)

(** Modelled from the spec: the four PHY modes, ordered; the values are
    the ones the error message of [cmd_chan_aa_phy] prints. *)
Definition PHY_1M : Z := 0.
Definition PHY_2M : Z := 1.
Definition PHY_CODED : Z := 2.
Definition PHY_CODED_S8 : Z := 2.
Definition PHY_CODED_S2 : Z := 3.

(** ** Packets and messages *)

(** Modelled from the spec: the RawPacket that [PacketMessage.from_fields]
    builds from its arguments (timestamp, length, event, RSSI, channel, PHY,
    body, received CRC, CRC-mismatch flag, transmit flag). *)
Record PacketMessage : Type := from_fields {
  pkt_ts : Z;
  pkt_len : Z;
  pkt_event : Z;
  pkt_rssi : Z;
  pkt_chan : Z;
  pkt_phy : Z;
  pkt_body : list byte;
  pkt_crc_rev : Z;
  pkt_crc_err : bool;
  pkt_is_tx : bool
}.

(** What the worker holds in [dpkt] and puts on the queue: [None], a plain
    [PacketMessage], an [AdvertMessage] (with its [AdvA], possibly [None]),
    or another decoded message. *)
Inductive Message : Type :=
| PyNone
| Raw (pkt : PacketMessage)
| Advert (pkt : PacketMessage) (AdvA : option (list byte))
| Decoded (pkt : PacketMessage).

(** The value of the Python variable [pkt] as a message. *)
Definition as_message (pkt : option PacketMessage) : Message :=
  match pkt with Some p => Raw p | None => PyNone end.

(** ** External collaborators *)

Class Collaborators : Type := {
  Burst : Type;
  Syms : Type;
  DecoderState : Type;
  (* sdr_utils *)
  resample : Burst -> Q -> Q -> Q * Burst;
  (* contract: the rate [resample] reports for a 4 MHz target is not zero *)
  resample_rate_nonzero : forall b fs, ~ (fst (resample b fs 4e6) == 0)%Q;
  fsk_decode : Burst -> Q -> Q -> bool -> Q -> Q * Syms;
  find_sync32 : Syms -> Z -> option Z;
  unpack_syms : Syms -> Z -> list byte;
  calc_rssi : Burst -> Q;
  (* whitening_ble, crc_ble *)
  le_dewhiten : list byte -> Z -> list byte;
  rbit24 : Z -> Z;
  crc_ble_reverse : Z -> list byte -> Z;
  (* pcap *)
  rf_to_ble_chan : Z -> Z;
  ble_to_rf_chan : Z -> Z;
  (* channelizer: PolyphaseChannelizer(num_channels).chan_idx(rf_rel) *)
  chan_idx : Z -> Z -> Z;
  (* packet_decoder: DPacketMessage.decode(pkt, decoder_state); it receives
     whatever [process_burst] returned, updates the decoder state in place
     (not the packet) and returns a message or raises *)
  decode : option PacketMessage -> DecoderState -> DecoderState * outcome Message;
  (* decoder_state: SniffleDecoderState() *)
  SniffleDecoderState : DecoderState;
  (* constants *)
  BLE_ADV_AA : Z;
  BLE_ADV_CRCI : Z;
  SnifferMode : list Z
}.

Section Sniffle.

Context `{Env : Collaborators}.

Definition freq_from_chan (chan : Z) : Q :=
  let rf := ble_to_rf_chan chan in
  (2402e6 + inject_Z rf * 2e6)%Q.

(** ** The session object *)

(** One burst the worker has taken from a detector and not yet handled:
    the BLE channel [c], the times and rates of the enclosing buffer, the
    CFO correction of the channel, the start index and the samples. *)
Record BurstJob : Type := {
  job_chan : Z;
  job_t_start : Q;
  job_start_idx : Z;
  job_burst : Burst;
  job_fs_decim : Q;
  job_cfo : Q
}.

(** The worker thread as [cancel_recv] sees it, that is what the thread
    still does before it tests [self.worker_running] again.  Either it is
    in a buffer, and handles the bursts of that buffer that are left
    ([thread_pending]); or it has passed the loop test already and its read
    finds the end of the capture file ([thread_eof], lines 169-173), in
    which case there is no buffer and it closes the file. *)
Record WorkerThread : Type := {
  thread_pending : list BurstJob;
  thread_eof : bool
}.

Record Session : Type := {
  sdr : option Q;            (* the device, with the frequency it is tuned to *)
  file : bool;               (* a capture file is open *)
  pktq : list Message;       (* Queue(): put appends, get takes the head *)
  decoder_state : DecoderState;
  worker : option WorkerThread;
  worker_running : bool;
  use_channelizer : bool;
  fs : Q;
  gain : Z;
  chan : Z;
  aa : Z;
  phy : Z;
  crci_rev : Z;
  rssi_min : Z;
  mac : option (list byte);
  validate_crc : bool
}.

Definition set_sdr v (s : Session) : Session :=
  {| sdr := v; file := file s; pktq := pktq s; decoder_state := decoder_state s;
     worker := worker s; worker_running := worker_running s;
     use_channelizer := use_channelizer s; fs := fs s; gain := gain s;
     chan := chan s; aa := aa s; phy := phy s; crci_rev := crci_rev s;
     rssi_min := rssi_min s; mac := mac s; validate_crc := validate_crc s |}.

Definition set_file v (s : Session) : Session :=
  {| sdr := sdr s; file := v; pktq := pktq s; decoder_state := decoder_state s;
     worker := worker s; worker_running := worker_running s;
     use_channelizer := use_channelizer s; fs := fs s; gain := gain s;
     chan := chan s; aa := aa s; phy := phy s; crci_rev := crci_rev s;
     rssi_min := rssi_min s; mac := mac s; validate_crc := validate_crc s |}.

Definition set_pktq v (s : Session) : Session :=
  {| sdr := sdr s; file := file s; pktq := v; decoder_state := decoder_state s;
     worker := worker s; worker_running := worker_running s;
     use_channelizer := use_channelizer s; fs := fs s; gain := gain s;
     chan := chan s; aa := aa s; phy := phy s; crci_rev := crci_rev s;
     rssi_min := rssi_min s; mac := mac s; validate_crc := validate_crc s |}.

Definition set_decoder_state v (s : Session) : Session :=
  {| sdr := sdr s; file := file s; pktq := pktq s; decoder_state := v;
     worker := worker s; worker_running := worker_running s;
     use_channelizer := use_channelizer s; fs := fs s; gain := gain s;
     chan := chan s; aa := aa s; phy := phy s; crci_rev := crci_rev s;
     rssi_min := rssi_min s; mac := mac s; validate_crc := validate_crc s |}.

Definition set_worker v (s : Session) : Session :=
  {| sdr := sdr s; file := file s; pktq := pktq s; decoder_state := decoder_state s;
     worker := v; worker_running := worker_running s;
     use_channelizer := use_channelizer s; fs := fs s; gain := gain s;
     chan := chan s; aa := aa s; phy := phy s; crci_rev := crci_rev s;
     rssi_min := rssi_min s; mac := mac s; validate_crc := validate_crc s |}.

Definition set_worker_running v (s : Session) : Session :=
  {| sdr := sdr s; file := file s; pktq := pktq s; decoder_state := decoder_state s;
     worker := worker s; worker_running := v;
     use_channelizer := use_channelizer s; fs := fs s; gain := gain s;
     chan := chan s; aa := aa s; phy := phy s; crci_rev := crci_rev s;
     rssi_min := rssi_min s; mac := mac s; validate_crc := validate_crc s |}.

Definition set_chan v (s : Session) : Session :=
  {| sdr := sdr s; file := file s; pktq := pktq s; decoder_state := decoder_state s;
     worker := worker s; worker_running := worker_running s;
     use_channelizer := use_channelizer s; fs := fs s; gain := gain s;
     chan := v; aa := aa s; phy := phy s; crci_rev := crci_rev s;
     rssi_min := rssi_min s; mac := mac s; validate_crc := validate_crc s |}.

Definition set_aa v (s : Session) : Session :=
  {| sdr := sdr s; file := file s; pktq := pktq s; decoder_state := decoder_state s;
     worker := worker s; worker_running := worker_running s;
     use_channelizer := use_channelizer s; fs := fs s; gain := gain s;
     chan := chan s; aa := v; phy := phy s; crci_rev := crci_rev s;
     rssi_min := rssi_min s; mac := mac s; validate_crc := validate_crc s |}.

Definition set_phy v (s : Session) : Session :=
  {| sdr := sdr s; file := file s; pktq := pktq s; decoder_state := decoder_state s;
     worker := worker s; worker_running := worker_running s;
     use_channelizer := use_channelizer s; fs := fs s; gain := gain s;
     chan := chan s; aa := aa s; phy := v; crci_rev := crci_rev s;
     rssi_min := rssi_min s; mac := mac s; validate_crc := validate_crc s |}.

Definition set_crci_rev v (s : Session) : Session :=
  {| sdr := sdr s; file := file s; pktq := pktq s; decoder_state := decoder_state s;
     worker := worker s; worker_running := worker_running s;
     use_channelizer := use_channelizer s; fs := fs s; gain := gain s;
     chan := chan s; aa := aa s; phy := phy s; crci_rev := v;
     rssi_min := rssi_min s; mac := mac s; validate_crc := validate_crc s |}.

Definition set_rssi_min v (s : Session) : Session :=
  {| sdr := sdr s; file := file s; pktq := pktq s; decoder_state := decoder_state s;
     worker := worker s; worker_running := worker_running s;
     use_channelizer := use_channelizer s; fs := fs s; gain := gain s;
     chan := chan s; aa := aa s; phy := phy s; crci_rev := crci_rev s;
     rssi_min := v; mac := mac s; validate_crc := validate_crc s |}.

Definition set_mac v (s : Session) : Session :=
  {| sdr := sdr s; file := file s; pktq := pktq s; decoder_state := decoder_state s;
     worker := worker s; worker_running := worker_running s;
     use_channelizer := use_channelizer s; fs := fs s; gain := gain s;
     chan := chan s; aa := aa s; phy := phy s; crci_rev := crci_rev s;
     rssi_min := rssi_min s; mac := v; validate_crc := validate_crc s |}.

Definition set_validate_crc v (s : Session) : Session :=
  {| sdr := sdr s; file := file s; pktq := pktq s; decoder_state := decoder_state s;
     worker := worker s; worker_running := worker_running s;
     use_channelizer := use_channelizer s; fs := fs s; gain := gain s;
     chan := chan s; aa := aa s; phy := phy s; crci_rev := crci_rev s;
     rssi_min := rssi_min s; mac := mac s; validate_crc := v |}.

(** ** Methods that mutate [self]: state and exceptions *)

Definition Cmd (A : Type) : Type := Session -> Session * outcome A.

#[global] Instance cmd_ret : MRet Cmd := fun A a s => (s, Ok a).
#[global] Instance cmd_bind : MBind Cmd := fun A B f m s =>
  match m s with
  | (s', Ok a) => f a s'
  | (s', Raised e) => (s', Raised e)
  end.

Definition raise {A} (e : exn) : Cmd A := fun s => (s, Raised e).
Definition gets {A} (f : Session -> A) : Cmd A := fun s => (s, Ok (f s)).
Definition modify (f : Session -> Session) : Cmd unit := fun s => (f s, Ok tt).
Definition pass : Cmd unit := mret tt.
Definition lift {A} (o : outcome A) : Cmd A := fun s => (s, o).

(** ** Session configuration *)

Definition cmd_chan_aa_phy (chan' aa' phy' crci : Z) : Cmd unit :=
  if negb ((0 <=? chan') && (chan' <=? 39)) then
    raise (ValueError "Channel must be between 0 and 39")
  else if negb ((PHY_1M <=? phy') && (phy' <=? PHY_CODED_S2)) then
    raise (ValueError "PHY must be 0 (1M), 1 (2M), 2 (coded S=8), or 3 (coded S=2)")
  else
    _ ← modify (set_chan chan');
    _ ← modify (set_aa aa');
    _ ← modify (set_phy phy');
    _ ← modify (set_crci_rev (rbit24 crci));
    dev ← gets sdr;
    match dev with
    | Some _ => c ← gets chan; modify (set_sdr (Some (freq_from_chan c)))
    | None => pass
    end.

Definition cmd_rssi (rssi : Z) : Cmd unit :=
  modify (set_rssi_min rssi).

Definition cmd_mac (mac_bytes : option (list byte)) : Cmd unit :=
  match mac_bytes with
  | None => modify (set_mac None)
  | Some b =>
      if negb (len b =? 6) then raise (ValueError "MAC must be 6 bytes!")
      else modify (set_mac (Some b))
  end.

Definition cmd_crc_valid (validate : bool) : Cmd unit :=
  modify (set_validate_crc validate).

(** The arguments of [setup_sniffer] that its body reads. *)
Record SetupArgs : Type := {
  arg_mode : Z;
  arg_chan : Z;
  arg_targ_mac : option (list byte);
  arg_targ_irk : option (list byte);
  arg_hop3 : bool;
  arg_ext_adv : bool;
  arg_coded_phy : bool;
  arg_rssi_min : Z;
  arg_validate_crc : bool
}.

Definition setup_sniffer (a : SetupArgs) : Cmd unit :=
  if negb (bool_decide (arg_mode a ∈ SnifferMode)) then
    raise (ValueError "Invalid mode requested")
  else
    wide ← gets use_channelizer;
    cur ← gets chan;
    if negb wide && negb ((37 <=? arg_chan a) && (arg_chan a <=? 39)) then
      raise (ValueError "Invalid primary advertising channel")
    else
      let chan' := if wide then cur else arg_chan a in
      if truthy (arg_targ_mac a) && truthy (arg_targ_irk a) then
        raise (UsageError "Can't specify both target MAC and IRK")
      else if arg_hop3 a && negb (truthy (arg_targ_mac a) || truthy (arg_targ_irk a)) then
        raise (UsageError "Must specify a target for advertising channel hop")
      else if arg_coded_phy a && negb (arg_ext_adv a) then
        raise (UsageError "Extended advertising needed for coded PHY")
      else
        _ ← cmd_chan_aa_phy chan' BLE_ADV_AA
              (if arg_coded_phy a then PHY_CODED else PHY_1M) BLE_ADV_CRCI;
        _ ← cmd_rssi (arg_rssi_min a);
        _ ← (if truthy (arg_targ_mac a) then cmd_mac (arg_targ_mac a)
             else if truthy (arg_targ_irk a) then pass
             else cmd_mac None);
        cmd_crc_valid (arg_validate_crc a).

(** ** The channel plan ([_recv_worker], before the capture loop) *)

(** A [for] loop whose body can raise. *)
Fixpoint for_each {S A} (body : S -> A -> outcome S) (l : list A) (s : S) : outcome S :=
  match l with
  | [] => Ok s
  | a :: l' => s' ← body s a; for_each body l' s'
  end.

Definition num_channels_of (fs : Q) : Z := int (fs / 2e6 + 0.5)%Q.

(** The body of [for rf_rel in range(-chan_max, chan_max + 1)]. *)
Definition plan_step (self : Session) (num_channels : Z) (chan_err : Q)
    (st : list (option Z) * list Q) (rf_rel : Z) : outcome (list (option Z) * list Q) :=
  let idx := chan_idx num_channels rf_rel in
  let rf_abs := ble_to_rf_chan (chan self) + rf_rel in
  if (0 <=? rf_abs) && (rf_abs <? 40) then
    channels ← setitem (fst st) idx (Some (rf_to_ble_chan rf_abs));
    channels_cfo ← setitem (snd st) idx (inject_Z (- rf_rel) * chan_err)%Q;
    mret (channels, channels_cfo)
  else mret st.

(** The plan: the decimated rate [fs_decim], [channels] and [channels_cfo]. *)
Definition channel_plan (self : Session) : outcome (Q * (list (option Z) * list Q)) :=
  if use_channelizer self then
    let num_channels := num_channels_of (fs self) in
    fs_decim ← div (fs self) (inject_Z num_channels);
    let chan_err := (fs_decim - 2e6)%Q in
    let chan_max := (num_channels - 1) `div` 2 in
    let channels := replicate (Z.to_nat num_channels) None in
    let channels_cfo := replicate (Z.to_nat num_channels) 0%Q in
    plan ← for_each (plan_step self num_channels chan_err)
              (range (- chan_max) (chan_max + 1)) (channels, channels_cfo);
    mret (fs_decim, plan)
  else
    let INIT_DECIM := 4%Q in
    let FILT_DECIM := 2%Q in
    let fs_decim := floordiv (fs self) (FILT_DECIM * INIT_DECIM) in
    mret (fs_decim, ([Some (chan self)], [0%Q])).

(** ** The burst pipeline ([process_burst]) *)

(** Which [return] statement of [process_burst] ended the call. *)
Inductive RejectReason : Type :=
| NoSync             (* line 230 *)
| RssiBelowFloor     (* line 233 *)
| MalformedLength    (* line 238 *)
| CrcMismatch.       (* line 249 *)

Inductive BurstResult : Type :=
| Rejected (why : RejectReason)
| Produced (pkt : PacketMessage).

(** The Python value returned: [None] for every rejection. *)
Definition returned (r : BurstResult) : option PacketMessage :=
  match r with
  | Rejected _ => None
  | Produced pkt => Some pkt
  end.

Definition symbol_rate_of (phy' : Z) : Q :=
  if phy' =? PHY_2M then 2e6%Q else 1e6%Q.

(** Lines 218-224: [(fs_resamp, burst_resamp)]. *)
Definition resampled (burst : Burst) (fs' : Q) : Q * Burst :=
  if Qltb fs' 4e6 then resample burst fs' 4e6 else (fs', burst).

(** Line 226: [(samp_offset, syms)]. *)
Definition demodulated (burst : Burst) (fs' cfo : Q) (phy' : Z) : Q * Syms :=
  let '(fs_resamp, burst_resamp) := resampled burst fs' in
  fsk_decode burst_resamp fs_resamp (symbol_rate_of phy') true cfo.

(** Line 231: [rssi], from the burst as received. *)
Definition burst_rssi (self : Session) (burst : Burst) : Z :=
  int (calc_rssi burst - inject_Z (gain self))%Q.

(** Lines 235-236: [data_dw]. *)
Definition dewhitened (syms : Syms) (sym_offset chan' : Z) : list byte :=
  let data := unpack_syms syms sym_offset in
  le_dewhiten (slice_from data 4) chan'.

(** Line 237: the test [len(data_dw) < 2 or len(data_dw) < 5 + data_dw[1]];
    the second operand is evaluated only when the first is false. *)
Definition too_short (data_dw : list byte) : outcome bool :=
  if len data_dw <? 2 then mret true
  else b ← getitem data_dw 1; mret (len data_dw <? 5 + byte_val b).

(** Line 244: the three CRC bytes, least significant first. *)
Definition crc_of_bytes (crc_bytes : list byte) : outcome Z :=
  c0 ← getitem crc_bytes 0;
  c1 ← getitem crc_bytes 1;
  c2 ← getitem crc_bytes 2;
  mret (Z.lor (Z.lor (byte_val c0) (Z.shiftl (byte_val c1) 8))
              (Z.shiftl (byte_val c2) 16)).

(** Lines 239-252, once the length test has passed. *)
Definition build_packet (self : Session) (chan' : Z) (t_sync : Q) (rssi : Z)
    (data_dw : list byte) : outcome BurstResult :=
  n ← getitem data_dw 1;
  let body := slice data_dw 0 (byte_val n + 2) in
  let crc_bytes := slice data_dw (byte_val n + 2) (byte_val n + 5) in
  let ts32 := Z.land (int (t_sync * 1e6)%Q) 0x3FFFFFFF in
  crc_rev ← crc_of_bytes crc_bytes;
  let crc_calc := crc_ble_reverse (crci_rev self) body in
  let crc_err := negb (crc_calc =? crc_rev) in
  if validate_crc self && crc_err then mret (Rejected CrcMismatch)
  else mret (Produced (from_fields ts32 (len body) 0 rssi chan' (phy self) body
                                   crc_rev crc_err false)).

Definition process_burst_steps (self : Session) (chan' : Z) (t_burst : Q)
    (burst : Burst) (fs' cfo : Q) (phy' : Z) : outcome BurstResult :=
  let symbol_rate := symbol_rate_of phy' in
  let fs_resamp := fst (resampled burst fs') in
  let '(samp_offset, syms) := demodulated burst fs' cfo phy' in
  match find_sync32 syms (aa self) with
  | None => mret (Rejected NoSync)
  | Some sym_offset =>
      let rssi := burst_rssi self burst in
      if rssi <? rssi_min self then mret (Rejected RssiBelowFloor)
      else
        t_samp ← div samp_offset fs_resamp;
        t_sym ← div (inject_Z sym_offset) symbol_rate;
        let t_sync := (t_burst + t_samp + t_sym)%Q in
        let data_dw := dewhitened syms sym_offset chan' in
        short ← too_short data_dw;
        if (short : bool) then mret (Rejected MalformedLength)
        else build_packet self chan' t_sync rssi data_dw
  end.

(** [process_burst(chan, t_burst, burst, fs, cfo, phy)]: the value the call
    returns, or the exception it raises. *)
Definition process_burst (self : Session) (chan' : Z) (t_burst : Q)
    (burst : Burst) (fs' cfo : Q) (phy' : Z) : outcome (option PacketMessage) :=
  r ← process_burst_steps self chan' t_burst burst fs' cfo phy'; mret (returned r).

(** ** The streaming worker ([_recv_worker], lines 182-205) *)

(** Lines 200-203: the message is skipped ([continue]) instead of queued. *)
Definition mac_filtered (mac' : option (list byte)) (dpkt : Message) : bool :=
  match dpkt with
  | Advert _ (Some adva) => truthy mac' && negb (bool_decide (Some adva = mac'))
  | _ => false
  end.

(** [self.pktq.put(item)] *)
Definition put (item : Message) : Cmd unit :=
  modify (fun s => set_pktq (pktq s ++ [item]) s).

(** Lines 190-191: the value bound to [pkt].  The call passes no [phy], so
    the parameter takes its default [PhyMode.PHY_1M]. *)
Definition burst_packet (j : BurstJob) (self : Session)
    : outcome (option PacketMessage) :=
  t_off ← div (inject_Z (job_start_idx j)) (job_fs_decim j);
  let t_burst := (job_t_start j + t_off)%Q in
  process_burst self (job_chan j) t_burst (job_burst j) (job_fs_decim j)
    (job_cfo j) PHY_1M.

(** Lines 193-198: the value bound to [dpkt]; [except BaseException] catches
    whatever the decoder raises. *)
Definition decoded (pkt : option PacketMessage) : Cmd Message :=
  ds ← gets decoder_state;
  let '(ds', r) := decode pkt ds in
  _ ← modify (set_decoder_state ds');
  match r with
  | Ok dpkt => mret dpkt
  | Raised _ => mret (as_message pkt)
  end.

(** Lines 200-205: the MAC filter, then the queue. *)
Definition deliver (dpkt : Message) : Cmd unit :=
  mac' ← gets mac;
  if mac_filtered mac' dpkt then pass
  else put dpkt.

(** The body of [for start_idx, burst in bursts] (lines 190-205). *)
Definition handle_burst (j : BurstJob) : Cmd unit :=
  self ← gets id;
  pkt ← lift (burst_packet j self);
  dpkt ← decoded pkt;
  deliver dpkt.

Fixpoint run_jobs (jobs : list BurstJob) : Cmd unit :=
  match jobs with
  | [] => pass
  | j :: rest => _ ← handle_burst j; run_jobs rest
  end.

(** The bursts of one captured buffer, in the order the loops on lines 182
    and 189 visit them; [detected i] is what [burst_dets[i].feed] returns
    for this buffer. *)
Fixpoint buffer_jobs (t_start fs_decim : Q) (channels_cfo : list Q)
    (detected : Z -> list (Z * Burst)) (i : Z) (channels : list (option Z))
    : outcome (list BurstJob) :=
  match channels with
  | [] => mret []
  | c :: rest =>
      here ← match c with
             | None => mret []
             | Some c' =>
                 if c' <? 37 then mret []
                 else
                   cfo ← getitem channels_cfo i;
                   mret (map (fun sb : Z * Burst =>
                                {| job_chan := c'; job_t_start := t_start;
                                   job_start_idx := fst sb; job_burst := snd sb;
                                   job_fs_decim := fs_decim; job_cfo := cfo |})
                             (detected i))
             end;
      later ← buffer_jobs t_start fs_decim channels_cfo detected (i + 1) rest;
      mret (here ++ later)
  end.

(** What one pass of the capture loop reads (lines 162-174): a short read
    from the device, the end of the capture file, a chunk of the file whose
    length is no whole number of samples (only the last chunk of a file can
    be one; [frombuffer] on line 174 refuses it), or a buffer of samples,
    given here by what the burst detectors find in it. *)
Inductive Read : Type :=
| ShortRead
| EndOfFile
| PartialSample
| Chunk (detected : Z -> list (Z * Burst)).

(** Lines 176-180: with the channelizer the buffer goes to
    [channelizer.process]; without it the cut-off of [decimate] is
    [1.6e6 * INIT_DECIM / self.fs], computed anew for every buffer. *)
Definition channelize : Cmd unit :=
  wide ← gets use_channelizer;
  if (wide : bool) then pass
  else
    fs' ← gets fs;
    _ ← lift (div (1.6e6 * 4) fs');
    pass.

(** [while self.worker_running:] over the reads that the model follows.
    When the list runs out the model stops following the thread: the run
    ends there, with the session as the last read of the list left it. *)
Fixpoint capture_loop (t_start fs_decim : Q) (channels : list (option Z))
    (channels_cfo : list Q) (reads : list Read) : Cmd unit :=
  running ← gets worker_running;
  if negb running then pass
  else
    match reads with
    | [] => pass
    | ShortRead :: _ => pass
    | EndOfFile :: _ => modify (set_file false)
    | PartialSample :: _ =>
        raise (ValueError "buffer size must be a multiple of element size")
    | Chunk detected :: rest =>
        _ ← channelize;
        jobs ← lift (buffer_jobs t_start fs_decim channels_cfo detected 0 channels);
        _ ← run_jobs jobs;
        capture_loop t_start fs_decim channels channels_cfo rest
    end.

Definition _recv_worker (t_start : Q) (reads : list Read) : Cmd unit :=
  _ ← modify (set_worker_running true);
  self ← gets id;
  plan ← lift (channel_plan self);
  _ ← capture_loop t_start (fst plan) (fst (snd plan)) (snd (snd plan)) reads;
  modify (set_worker_running false).

(** ** Receiving and cancelling *)

(** What the thread still does once the flag is cleared. *)
Definition thread_rest (t : WorkerThread) : Cmd unit :=
  if thread_eof t then modify (set_file false)
  else run_jobs (thread_pending t).

(** [Thread.join()] on a worker whose flag has been cleared: the thread
    finishes what it is in, leaves the loop and clears the flag itself
    (line 210); if it dies on an exception the join returns all the same. *)
Definition join (t : WorkerThread) : Cmd unit :=
  fun s =>
    match thread_rest t s with
    | (s', Ok _) => (set_worker (Some {| thread_pending := []; thread_eof := false |})
                       (set_worker_running false s'), Ok tt)
    | (s', Raised _) =>
        (set_worker (Some {| thread_pending := []; thread_eof := false |}) s', Ok tt)
    end.

Definition cancel_recv : Cmd unit :=
  running ← gets worker_running;
  if (running : bool) then
    _ ← modify (set_worker_running false);
    w ← gets worker;
    _ ← match w with
        | Some t => join t
        | None => raise (AttributeError "'NoneType' object has no attribute 'join'")
        end;
    put PyNone
  else pass.

(** [self.pktq.get()]: the oldest item, or [None] when the call blocks. *)
Definition pktq_get (s : Session) : option (Message * Session) :=
  match pktq s with
  | [] => None
  | m :: q => Some (m, set_pktq q s)
  end.

(** The object after [__init__] with a [file:] driver. *)
Definition init_file : Session :=
  {| sdr := None; file := true; pktq := []; decoder_state := SniffleDecoderState;
     worker := None; worker_running := false; use_channelizer := true;
     fs := 122.88e6%Q; gain := 10; chan := 17; aa := BLE_ADV_AA; phy := PHY_1M;
     crci_rev := rbit24 BLE_ADV_CRCI; rssi_min := -128; mac := None;
     validate_crc := true |}.

End Sniffle.

(** ** The rest of the module: [chan_from_freq] and the constructor *)

(** What the constructor finds outside the object: the sample rates and
    antennas the device lists, and the capture files that can be opened. *)
Record Host : Type := {
  host_rates : list Q;
  host_antennas : list string;
  host_files : list string
}.

Section Construction.

Context `{Env : Collaborators}.

Definition chan_from_freq (freq : Q) : Z :=
  let rf := ((freq - 2402e6) / 2e6)%Q in
  rf_to_ble_chan (int rf).

(** [driver[n:]] *)
Definition str_from (n : nat) (driver : string) : string :=
  String.substring n (String.length driver - n) driver.

(** [SniffleSDR(driver)]: the object [__init__] leaves, or the exception
    that ends the construction.  The device is the frequency it is tuned to;
    bandwidth, gain, antenna and sample rate settings of the device are not
    kept. *)
Definition __init__ (host : Host) (driver : string) : outcome Session :=
  let self :=
    {| sdr := None; file := false; pktq := [];
       decoder_state := SniffleDecoderState; worker := None;
       worker_running := false; use_channelizer := false; fs := 0%Q;
       gain := 10; chan := 37; aa := BLE_ADV_AA; phy := PHY_1M;
       crci_rev := rbit24 BLE_ADV_CRCI; rssi_min := -128; mac := None;
       validate_crc := true |} in
  if String.prefix "rfnm" driver then
    let rates := host_rates host in
    let antennas := host_antennas host in
    _ ← getitem antennas 1;
    let '(chan', wide, rate_idx) :=
      if String.eqb driver "rfnm:full" then (17, true, 0)
      else if String.eqb driver "rfnm:partial" then (12, true, 1)
      else (chan self, use_channelizer self, 1) in
    rate ← getitem rates rate_idx;
    mret {| sdr := Some (freq_from_chan chan'); file := false; pktq := [];
            decoder_state := SniffleDecoderState; worker := None;
            worker_running := false; use_channelizer := wide; fs := rate;
            gain := 10; chan := chan'; aa := BLE_ADV_AA; phy := PHY_1M;
            crci_rev := rbit24 BLE_ADV_CRCI; rssi_min := -128; mac := None;
            validate_crc := true |}
  else if String.prefix "file:" driver then
    if existsb (String.eqb (str_from 5 driver)) (host_files host) then
      mret {| sdr := None; file := true; pktq := [];
              decoder_state := SniffleDecoderState; worker := None;
              worker_running := false; use_channelizer := true;
              fs := 122.88e6%Q; gain := 10; chan := 17; aa := BLE_ADV_AA;
              phy := PHY_1M; crci_rev := rbit24 BLE_ADV_CRCI; rssi_min := -128;
              mac := None; validate_crc := true |}
    else Raised (Exception "FileNotFoundError")
  else Raised (ValueError "Unknown driver").

(** [mark_and_flush] *)
Definition mark_and_flush : Cmd unit := pass.

End Construction.

(** ** A bench instance of the collaborators

    Stand-ins on which the embedding runs: a burst carries its RSSI, the
    symbol offset of its sync word and its bytes; whitening is the
    identity, the CRC a 24-bit sum; the channel tables are the BLE ones
    and the channelizer index is the offset modulo the channel count. *)

Module Bench.

Record Capture : Type := {
  cap_rssi : Q;
  cap_sync : option Z;
  cap_data : list byte
}.

Definition rf_to_ble (rf : Z) : Z :=
  if rf =? 0 then 37
  else if rf <? 12 then rf - 1
  else if rf =? 12 then 38
  else if rf <? 39 then rf - 2
  else 39.

Definition ble_to_rf (ble : Z) : Z :=
  if ble <? 11 then ble + 1
  else if ble <? 37 then ble + 2
  else if ble =? 37 then 0
  else if ble =? 38 then 12
  else 39.

Definition sum24 (init : Z) (body : list byte) : Z :=
  (foldl (fun acc b => acc + byte_val b) init body) `mod` 2 ^ 24.

(** A decoder that reads the fields of the packet it is given: [None] has
    none, an advertisement needs its six address bytes. *)
Definition decoder (pkt : option PacketMessage) (seen : nat)
    : nat * outcome Message :=
  match pkt with
  | None =>
      (seen, Raised (AttributeError "'NoneType' object has no attribute 'chan'"))
  | Some p =>
      if pkt_chan p <? 37 then (S seen, Ok (Decoded p))
      else if len (pkt_body p) <? 8 then (S seen, Raised (Exception "short advertisement"))
      else (S seen, Ok (Advert p (Some (slice (pkt_body p) 2 8))))
  end.

(** The bench bursts are 1M bursts: demodulated at another symbol rate they
    show no sync word. *)
Definition demod_1M (b : Capture) (fs symbol_rate : Q) (_ : bool) (cfo : Q)
    : Q * Capture :=
  if Qeq_bool symbol_rate 1e6 then (0%Q, b)
  else (0%Q, {| cap_rssi := cap_rssi b; cap_sync := None; cap_data := [] |}).

Lemma resample_rate (b : Capture) (fs : Q) : ~ (fst (4e6%Q, b) == 0)%Q.
Proof. intros H. vm_compute in H. discriminate H. Qed.

Definition env : Collaborators := {|
  Burst := Capture;
  Syms := Capture;
  DecoderState := nat;
  resample := fun b _ target => (target, b);
  resample_rate_nonzero := resample_rate;
  fsk_decode := demod_1M;
  find_sync32 := fun syms _ => cap_sync syms;
  unpack_syms := fun syms _ => cap_data syms;
  calc_rssi := cap_rssi;
  le_dewhiten := fun data _ => data;
  rbit24 := fun x => x;
  crc_ble_reverse := sum24;
  rf_to_ble_chan := rf_to_ble;
  ble_to_rf_chan := ble_to_rf;
  chan_idx := fun n r => r `mod` n;
  decode := decoder;
  SniffleDecoderState := 0%nat;
  BLE_ADV_AA := 0x8E89BED6;
  BLE_ADV_CRCI := 0x555555;
  SnifferMode := [0; 1; 2]
|}.

#[local] Existing Instance env.

(** A session on a single channel (no channelizer), as [__init__] leaves
    its fields. *)
Definition single : Session :=
  {| sdr := None; file := true; pktq := []; decoder_state := 0%nat;
     worker := None; worker_running := false; use_channelizer := false;
     fs := 16e6%Q; gain := 10; chan := 37; aa := 0x8E89BED6; phy := PHY_1M;
     crci_rev := 0x555555; rssi_min := -128; mac := None;
     validate_crc := true |}.

(** An advertising body: header, length 6, the address 01..06; then the
    sum24 CRC of the body from 0x555555 and one spare byte. *)
Definition adv_body : list byte :=
  [x00; x06; x01; x02; x03; x04; x05; x06].

Definition adv_frame : list byte :=
  [xd6; xbe; x89; x8e] ++ adv_body ++ [x70; x55; x55; x00].

Definition good_burst : Capture :=
  {| cap_rssi := (-50)%Q; cap_sync := Some 8; cap_data := adv_frame |}.

Definition noise_burst : Capture :=
  {| cap_rssi := (-50)%Q; cap_sync := None; cap_data := [] |}.

(** [setup_sniffer(chan=38, targ_mac=b'\x01\x02\x03', rssi_min=-60)] *)
Definition short_mac_request : SetupArgs :=
  {| arg_mode := 1; arg_chan := 38; arg_targ_mac := Some [x01; x02; x03];
     arg_targ_irk := None; arg_hop3 := false; arg_ext_adv := false;
     arg_coded_phy := false; arg_rssi_min := -60; arg_validate_crc := true |}.

(** The same frame with one payload bit flipped and the CRC of the
    original body. *)
Definition corrupt_burst : Capture :=
  {| cap_rssi := (-50)%Q; cap_sync := Some 8;
     cap_data := [xd6; xbe; x89; x8e; x00; x06; x01; x02; x03; x04; x05; x07;
                  x70; x55; x55; x00] |}.


(** The good frame, one decibel weaker. *)
Definition weak_burst : Capture :=
  {| cap_rssi := (-51)%Q; cap_sync := Some 8; cap_data := adv_frame |}.

(** The good frame, seven tenths of a decibel weaker: with the gain of 10
    its RSSI is -60.7. *)
Definition faint_burst : Capture :=
  {| cap_rssi := (-50.7)%Q; cap_sync := Some 8; cap_data := adv_frame |}.

(** A well-formed frame with a correct CRC whose body is too short for the
    bench decoder. *)
Definition runt_burst : Capture :=
  {| cap_rssi := (-50)%Q; cap_sync := Some 8;
     cap_data := [xd6; xbe; x89; x8e; x00; x02; x01; x02; x5a; x55; x55] |}.

Definition job_of (b : Capture) : BurstJob :=
  {| job_chan := 37; job_t_start := 0%Q; job_start_idx := 128; job_burst := b;
     job_fs_decim := 2e6%Q; job_cfo := 0%Q |}.

(** Sessions derived from [single]. *)
Definition relaxed : Session := set_validate_crc false single.
Definition gated : Session := set_rssi_min (-60) single.
Definition two_meg : Session := set_phy PHY_2M single.
Definition filtering : Session :=
  set_mac (Some [x01; x02; x03; x04; x05; x06]) single.
Definition running : Session :=
  set_worker (Some {| thread_pending := [job_of good_burst]; thread_eof := false |})
    (set_worker_running true single).

Definition good_packet : PacketMessage :=
  from_fields 72 8 0 (-60) 37 0 adv_body 0x555570 false false.

(** [setup_sniffer(mode=1, chan=38, targ_mac=b'\x01..\x06', rssi_min=-60)] *)
Definition mac_request : SetupArgs :=
  {| arg_mode := 1; arg_chan := 38;
     arg_targ_mac := Some [x01; x02; x03; x04; x05; x06];
     arg_targ_irk := None; arg_hop3 := false; arg_ext_adv := false;
     arg_coded_phy := false; arg_rssi_min := -60; arg_validate_crc := true |}.

(** [single] with a device, tuned to channel 37. *)
Definition with_device : Session :=
  set_sdr (Some (freq_from_chan 37)) single.

(** [single] tuned to the data channel 10. *)
Definition on_data_channel : Session := set_chan 10 single.

(** A machine with a two-antenna device and one capture file. *)
Definition bench_host : Host :=
  {| host_rates := [122.88e6%Q; 61.44e6%Q]; host_antennas := ["A"; "B"]%string;
     host_files := ["capture.cf32"%string] |}.

(** A buffer in which the detector of output 0 reports the good burst. *)
Definition one_burst (i : Z) : list (Z * Burst) :=
  if i =? 0 then [(128, good_burst : Burst)] else [].

(** The packet of [good_burst] for a burst time of 0. *)
Definition first_packet : PacketMessage :=
  from_fields 8 8 0 (-60) 37 0 adv_body 0x555570 false false.

(** [single] with its worker flag set. *)
Definition capturing : Session := set_worker_running true single.

End Bench.


(** * Vocabulary of the statements *)

Section Vocabulary.

Context `{Env : Collaborators}.

(** The five requests that [setup_sniffer] itself refuses. *)
Definition refused_by_setup (s : Session) (a : SetupArgs) : Prop :=
  arg_mode a ∉ SnifferMode
  \/ (use_channelizer s = false /\ ~ (37 <= arg_chan a <= 39))
  \/ (truthy (arg_targ_mac a) = true /\ truthy (arg_targ_irk a) = true)
  \/ (arg_hop3 a = true /\ truthy (arg_targ_mac a) = false
      /\ truthy (arg_targ_irk a) = false)
  \/ (arg_coded_phy a = true /\ arg_ext_adv a = false).

(** The quantities of [process_burst] that the statements name. *)

(** The symbols demodulated from the burst. *)
Definition syms_of (burst : Burst) (fs' cfo : Q) (phy' : Z) : Syms :=
  snd (demodulated burst fs' cfo phy').

(** The time of the sync word (step 6). *)
Definition sync_time (t_burst : Q) (burst : Burst) (fs' cfo : Q) (phy' : Z)
    (sym_offset : Z) : Q :=
  (t_burst + fst (demodulated burst fs' cfo phy') / fst (resampled burst fs')
   + inject_Z sym_offset / symbol_rate_of phy')%Q.

(** The length byte: the second dewhitened byte. *)
Definition length_byte (data_dw : list byte) : Z :=
  match data_dw !! 1%nat with Some b => byte_val b | None => 0 end.

Definition malformed (data_dw : list byte) : Prop :=
  len data_dw < 2 \/ len data_dw < 5 + length_byte data_dw.

Definition malformedb (data_dw : list byte) : bool :=
  (len data_dw <? 2) || (len data_dw <? 5 + length_byte data_dw).

(** The first [length_byte + 2] bytes, and the three bytes after them. *)
Definition body_of (data_dw : list byte) : list byte :=
  take (Z.to_nat (length_byte data_dw + 2)) data_dw.

Definition crc_bytes_of (data_dw : list byte) : list byte :=
  take 3 (drop (Z.to_nat (length_byte data_dw + 2)) data_dw).

(** Three bytes as a 24-bit number, least significant byte first. *)
Definition le24 (bs : list byte) : Z :=
  match bs with
  | c0 :: c1 :: c2 :: _ =>
      Z.lor (Z.lor (byte_val c0) (Z.shiftl (byte_val c1) 8))
            (Z.shiftl (byte_val c2) 16)
  | _ => 0
  end.

(** The CRC computed over the body, and the one received. *)
Definition crc_calc_of (self : Session) (data_dw : list byte) : Z :=
  crc_ble_reverse (crci_rev self) (body_of data_dw).

Definition crc_rev_of (data_dw : list byte) : Z := le24 (crc_bytes_of data_dw).

(** The packet built from a well-formed dewhitened burst. *)
Definition packet_of (self : Session) (chan' : Z) (t_sync : Q) (rssi : Z)
    (data_dw : list byte) : PacketMessage :=
  from_fields (Z.land (int (t_sync * 1e6)%Q) 0x3FFFFFFF)
    (len (body_of data_dw)) 0 rssi chan' (phy self) (body_of data_dw)
    (crc_rev_of data_dw)
    (negb (crc_calc_of self data_dw =? crc_rev_of data_dw)) false.

(** The four gates in the order the code applies them. *)
Definition gates (self : Session) (chan' : Z) (t_burst : Q) (burst : Burst)
    (fs' cfo : Q) (phy' : Z) : BurstResult :=
  let syms := syms_of burst fs' cfo phy' in
  match find_sync32 syms (aa self) with
  | None => Rejected NoSync
  | Some sym_offset =>
      let data_dw := dewhitened syms sym_offset chan' in
      if burst_rssi self burst <? rssi_min self then Rejected RssiBelowFloor
      else if malformedb data_dw then Rejected MalformedLength
      else if validate_crc self
              && negb (crc_calc_of self data_dw =? crc_rev_of data_dw)
      then Rejected CrcMismatch
      else Produced (packet_of self chan'
                       (sync_time t_burst burst fs' cfo phy' sym_offset)
                       (burst_rssi self burst) data_dw)
  end.

(** The packet with another PHY tag, everything else the same. *)
Definition with_phy (p : Z) (pkt : PacketMessage) : PacketMessage :=
  from_fields (pkt_ts pkt) (pkt_len pkt) (pkt_event pkt) (pkt_rssi pkt)
    (pkt_chan pkt) p (pkt_body pkt) (pkt_crc_rev pkt) (pkt_crc_err pkt)
    (pkt_is_tx pkt).

Definition retagged (p : Z) (r : outcome (option PacketMessage))
    : outcome (option PacketMessage) :=
  match r with
  | Ok (Some pkt) => Ok (Some (with_phy p pkt))
  | _ => r
  end.

(** The time the worker gives to a burst (line 190). *)
Definition burst_time (j : BurstJob) : Q :=
  (job_t_start j + inject_Z (job_start_idx j) / job_fs_decim j)%Q.

(** ** The channel plan *)

(** An absolute RF channel index inside the band (line 144). *)
Definition in_band (rf_abs : Z) : bool := (0 <=? rf_abs) && (rf_abs <? 40).

(** The per-channel error of the plan (line 135). *)
Definition chan_err_of (fs' : Q) : Q :=
  (fs' / inject_Z (num_channels_of fs') - 2e6)%Q.

(** What the plan loop has established after the offsets [done]: every
    output position either holds the channel and correction of an in-band
    offset among [done] that maps to it, or is still unused. *)
Definition plan_invariant (self : Session) (done : list Z)
    (st : list (option Z) * list Q) : Prop :=
  let N := num_channels_of (fs self) in
  let rf0 := ble_to_rf_chan (chan self) in
  len (fst st) = N /\ len (snd st) = N
  /\ forall p : nat, Z.of_nat p < N ->
       (exists r, r ∈ done /\ in_band (rf0 + r) = true
                  /\ index_position N (chan_idx N r) = Some p
                  /\ fst st !! p = Some (Some (rf_to_ble_chan (rf0 + r)))
                  /\ snd st !! p
                     = Some (inject_Z (- r) * chan_err_of (fs self))%Q)
       \/ ((forall r, r ∈ done -> in_band (rf0 + r) = true ->
               index_position N (chan_idx N r) <> Some p)
           /\ fst st !! p = Some None /\ snd st !! p = Some 0%Q).

End Vocabulary.

Section ConfigurationVocabulary.

Context `{Env : Collaborators}.

(** The invariants of the configuration: a channel in 0..39, one of the
    four PHY modes, a MAC filter that is absent or 6 bytes long. *)
Definition config_ok (s : Session) : Prop :=
  0 <= chan s <= 39
  /\ PHY_1M <= phy s <= PHY_CODED_S2
  /\ (mac s = None \/ exists b, mac s = Some b /\ length b = 6%nat).

(** A request that passes the five tests of [setup_sniffer]. *)
Definition accepted_by_setup (s : Session) (a : SetupArgs) : Prop :=
  arg_mode a ∈ SnifferMode
  /\ (use_channelizer s = true \/ 37 <= arg_chan a <= 39)
  /\ truthy (arg_targ_mac a) && truthy (arg_targ_irk a) = false
  /\ arg_hop3 a && negb (truthy (arg_targ_mac a) || truthy (arg_targ_irk a))
     = false
  /\ arg_coded_phy a && negb (arg_ext_adv a) = false.

(** The channel, PHY and MAC filter that an accepted request asks for. *)
Definition setup_chan (s : Session) (a : SetupArgs) : Z :=
  if use_channelizer s then chan s else arg_chan a.

Definition setup_phy (a : SetupArgs) : Z :=
  if arg_coded_phy a then PHY_CODED else PHY_1M.

Definition setup_mac (s : Session) (a : SetupArgs) : option (list byte) :=
  if truthy (arg_targ_mac a) then arg_targ_mac a
  else if truthy (arg_targ_irk a) then mac s
  else None.

(** The request with another channel. *)
Definition with_arg_chan (c : Z) (a : SetupArgs) : SetupArgs :=
  {| arg_mode := arg_mode a; arg_chan := c; arg_targ_mac := arg_targ_mac a;
     arg_targ_irk := arg_targ_irk a; arg_hop3 := arg_hop3 a;
     arg_ext_adv := arg_ext_adv a; arg_coded_phy := arg_coded_phy a;
     arg_rssi_min := arg_rssi_min a; arg_validate_crc := arg_validate_crc a |}.

(** The session is idle: no worker thread, the flag clear, nothing queued. *)
Definition idle (s : Session) : Prop :=
  worker s = None /\ worker_running s = false /\ pktq s = [].

(** The device, when there is one, is tuned to the frequency of the
    session channel. *)
Definition tuned (s : Session) : Prop :=
  forall f, sdr s = Some f -> f = freq_from_chan (chan s).

End ConfigurationVocabulary.

Section WorkerVocabulary.

Context `{Env : Collaborators}.

(** What the worker may change between two states: the queue, by adding
    at its tail, the decoder state, the flag and the capture file; the
    configuration, the device and the thread handle stay. *)
Definition worker_frame (s s' : Session) : Prop :=
  sdr s' = sdr s /\ worker s' = worker s
  /\ use_channelizer s' = use_channelizer s /\ fs s' = fs s
  /\ gain s' = gain s /\ chan s' = chan s /\ aa s' = aa s
  /\ phy s' = phy s /\ crci_rev s' = crci_rev s
  /\ rssi_min s' = rssi_min s /\ mac s' = mac s
  /\ validate_crc s' = validate_crc s
  /\ exists q, pktq s' = pktq s ++ q.

(** A read that delivers a full buffer. *)
Definition is_chunk (r : Read) : Prop :=
  match r with Chunk _ => True | _ => False end.

(** A plan entry the worker skips (line 183). *)
Definition skipped (c : option Z) : Prop :=
  match c with Some c' => c' < 37 | None => True end.

(** The burst [sb] found on the channel [c] with correction [cfo], as the
    worker hands it on. *)
Definition job_for (t_start fs_decim : Q) (c : Z) (cfo : Q) (sb : Z * Burst)
    : BurstJob :=
  {| job_chan := c; job_t_start := t_start; job_start_idx := fst sb;
     job_burst := snd sb; job_fs_decim := fs_decim; job_cfo := cfo |}.

End WorkerVocabulary.

(** * Properties *)

(** Unfolding of the two monads. *)
Ltac run_cmd :=
  repeat (unfold mbind, mret, cmd_bind, cmd_ret, outcome_bind, outcome_ret,
            gets, modify, raise, pass, lift, put; simpl).

Section Configuration.

Context `{Env : Collaborators}.

Lemma cmd_chan_aa_phy_rejects (s : Session) (c a p crci : Z) :
  ~ (0 <= c <= 39) \/ ~ (PHY_1M <= p <= PHY_CODED_S2) ->
  exists msg, cmd_chan_aa_phy c a p crci s = (s, Raised (ValueError msg)).
Proof.
  intros H. unfold cmd_chan_aa_phy.
  destruct ((0 <=? c) && (c <=? 39)) eqn:Hc; simpl; [|eexists; reflexivity].
  destruct ((PHY_1M <=? p) && (p <=? PHY_CODED_S2)) eqn:Hp; simpl;
    [|eexists; reflexivity].
  apply andb_prop in Hc as [?%Z.leb_le ?%Z.leb_le].
  apply andb_prop in Hp as [?%Z.leb_le ?%Z.leb_le].
  destruct H as [H|H]; exfalso; apply H; split; assumption.
Qed.

Lemma cmd_chan_aa_phy_accepts (s : Session) (c a p crci : Z) :
  0 <= c <= 39 -> PHY_1M <= p <= PHY_CODED_S2 ->
  cmd_chan_aa_phy c a p crci s =
    (match sdr s with
     | Some _ => set_sdr (Some (freq_from_chan c))
     | None => fun s' => s'
     end (set_crci_rev (rbit24 crci) (set_phy p (set_aa a (set_chan c s)))), Ok tt).
Proof.
  intros [Hc1 Hc2] [Hp1 Hp2]. unfold cmd_chan_aa_phy.
  apply Z.leb_le in Hc1, Hc2, Hp1, Hp2.
  rewrite Hc1, Hc2, Hp1, Hp2. run_cmd. destruct (sdr s); reflexivity.
Qed.

Lemma cmd_mac_rejects (s : Session) (b : list byte) :
  length b <> 6%nat ->
  cmd_mac (Some b) s = (s, Raised (ValueError "MAC must be 6 bytes!")).
Proof.
  intros H. unfold cmd_mac, len.
  destruct (Z.of_nat (length b) =? 6) eqn:E; [|reflexivity].
  apply Z.eqb_eq in E. lia.
Qed.

Lemma cmd_mac_accepts (s : Session) (b : list byte) :
  length b = 6%nat -> cmd_mac (Some b) s = (set_mac (Some b) s, Ok tt).
Proof. intros H. unfold cmd_mac, len. rewrite H. reflexivity. Qed.

Lemma setup_sniffer_rejects (s : Session) (a : SetupArgs) :
  refused_by_setup s a -> exists e, setup_sniffer a s = (s, Raised e).
Proof.
  intros H. unfold setup_sniffer.
  destruct (bool_decide (arg_mode a ∈ SnifferMode)) eqn:Hm; simpl;
    [|eexists; reflexivity].
  apply bool_decide_eq_true in Hm. run_cmd.
  destruct (negb (use_channelizer s) &&
            negb ((37 <=? arg_chan a) && (arg_chan a <=? 39))) eqn:Hc;
    [eexists; reflexivity|].
  destruct (truthy (arg_targ_mac a) && truthy (arg_targ_irk a)) eqn:Hb;
    [eexists; reflexivity|].
  destruct (arg_hop3 a &&
            negb (truthy (arg_targ_mac a) || truthy (arg_targ_irk a))) eqn:Hh;
    [eexists; reflexivity|].
  destruct (arg_coded_phy a && negb (arg_ext_adv a)) eqn:Hp;
    [eexists; reflexivity|].
  exfalso. destruct H as [H|[[Hw H]|[[H1 H2]|[(H1 & H2 & H3)|[H1 H2]]]]].
  - contradiction.
  - rewrite Hw in Hc. simpl in Hc. apply negb_false_iff, andb_prop in Hc.
    destruct Hc as [?%Z.leb_le ?%Z.leb_le]. apply H. split; assumption.
  - rewrite H1, H2 in Hb. discriminate.
  - rewrite H1, H2, H3 in Hh. discriminate.
  - rewrite H1, H2 in Hp. discriminate.
Qed.

(** A request that passes the five tests of [setup_sniffer] and names a
    target MAC. *)
Lemma setup_sniffer_commits_before_mac (s : Session) (a : SetupArgs) (b : list byte) :
  arg_mode a ∈ SnifferMode ->
  use_channelizer s = false ->
  37 <= arg_chan a <= 39 ->
  arg_targ_mac a = Some b -> b <> [] ->
  truthy (arg_targ_irk a) = false ->
  (arg_coded_phy a = true -> arg_ext_adv a = true) ->
  setup_sniffer a s =
    (_ ← cmd_chan_aa_phy (arg_chan a) BLE_ADV_AA
           (if arg_coded_phy a then PHY_CODED else PHY_1M) BLE_ADV_CRCI;
     _ ← cmd_rssi (arg_rssi_min a);
     _ ← cmd_mac (Some b);
     cmd_crc_valid (arg_validate_crc a)) s.
Proof.
  intros Hm Hw [Hc1 Hc2] Hmac Hb Hirk Hcoded. unfold setup_sniffer.
  rewrite (bool_decide_eq_true_2 _ Hm). simpl.
  unfold mbind at 1, cmd_bind at 1, gets at 1.
  unfold mbind at 1, cmd_bind at 1, gets at 1.
  rewrite Hw. apply Z.leb_le in Hc1, Hc2. rewrite Hc1, Hc2. simpl.
  rewrite Hmac, Hirk.
  assert (Ht : truthy (Some b) = true) by (destruct b; [contradiction|reflexivity]).
  rewrite Ht. simpl. rewrite andb_false_r.
  destruct (arg_coded_phy a) eqn:Hcp; simpl; [rewrite Hcoded by reflexivity|];
    reflexivity.
Qed.

(** C6 (code defect): a [setup_sniffer] request that passes the five tests
    of the method but names a target MAC that is not 6 bytes long is
    rejected by the nested [cmd_mac] with [ValueError], after the channel,
    access address, PHY, CRC init and RSSI floor of the session have been
    overwritten with the requested values: the rejection does not leave the
    session unchanged. *)
Theorem setup_sniffer_bad_mac_mutates (s : Session) (a : SetupArgs) (b : list byte) :
  arg_mode a ∈ SnifferMode ->
  use_channelizer s = false ->
  37 <= arg_chan a <= 39 ->
  arg_targ_mac a = Some b -> b <> [] -> length b <> 6%nat ->
  truthy (arg_targ_irk a) = false ->
  (arg_coded_phy a = true -> arg_ext_adv a = true) ->
  exists s',
    setup_sniffer a s = (s', Raised (ValueError "MAC must be 6 bytes!"))
    /\ chan s' = arg_chan a
    /\ aa s' = BLE_ADV_AA
    /\ phy s' = (if arg_coded_phy a then PHY_CODED else PHY_1M)
    /\ crci_rev s' = rbit24 BLE_ADV_CRCI
    /\ rssi_min s' = arg_rssi_min a
    /\ mac s' = mac s
    /\ validate_crc s' = validate_crc s.
Proof.
  intros Hm Hw Hc Hmac Hb Hlen Hirk Hcoded.
  rewrite (setup_sniffer_commits_before_mac s a b) by assumption.
  unfold mbind at 1, cmd_bind at 1.
  rewrite cmd_chan_aa_phy_accepts;
    [|lia|destruct (arg_coded_phy a); unfold PHY_1M, PHY_CODED, PHY_CODED_S2; lia].
  unfold mbind at 1, cmd_bind at 1, cmd_rssi, modify at 1.
  unfold mbind at 1, cmd_bind at 1.
  rewrite cmd_mac_rejects by assumption.
  eexists. split; [reflexivity|].
  destruct (sdr s); simpl; repeat split; reflexivity.
Qed.

End Configuration.

Lemma setup_sniffer_bad_mac_mutates_witness :
  exists s',
    setup_sniffer (Env := Bench.env) Bench.short_mac_request Bench.single
      = (s', Raised (ValueError "MAC must be 6 bytes!"))
    /\ chan s' = 38 /\ chan Bench.single = 37
    /\ rssi_min s' = -60 /\ rssi_min Bench.single = -128.
Proof.
  destruct (setup_sniffer_bad_mac_mutates (Env := Bench.env) Bench.single
              Bench.short_mac_request [x01; x02; x03])
    as (s' & Hrun & Hchan & _ & _ & _ & Hrssi & _).
  - simpl. apply (bool_decide_unpack (1 ∈ [0; 1; 2])). vm_compute. exact I.
  - reflexivity.
  - simpl; lia.
  - reflexivity.
  - discriminate.
  - simpl; lia.
  - reflexivity.
  - discriminate.
  - exists s'. repeat split; assumption.
Defined.

Section Worker.

Context `{Env : Collaborators}.

(** ** What the worker touches *)

Lemma session_frame_id (s : Session) :
  s = set_pktq (pktq s ++ []) (set_decoder_state (decoder_state s) s).
Proof. destruct s; simpl. rewrite app_nil_r. reflexivity. Qed.

Lemma session_frame_compose (s : Session) ds1 q1 ds2 q2 :
  set_pktq (pktq (set_pktq (pktq s ++ q1) (set_decoder_state ds1 s)) ++ q2)
    (set_decoder_state ds2 (set_pktq (pktq s ++ q1) (set_decoder_state ds1 s)))
  = set_pktq (pktq s ++ (q1 ++ q2)) (set_decoder_state ds2 s).
Proof. simpl. rewrite app_assoc. reflexivity. Qed.

(** One burst changes the queue (by at most one item, at the tail) and the
    decoder state, nothing else. *)
Lemma handle_burst_frame (j : BurstJob) (s : Session) :
  exists ds q, fst (handle_burst j s)
               = set_pktq (pktq s ++ q) (set_decoder_state ds s).
Proof.
  unfold handle_burst. run_cmd.
  destruct (burst_packet j s) as [pkt|e]; simpl.
  - unfold decoded. run_cmd.
    destruct (decode pkt (decoder_state s)) as [ds' r]. run_cmd.
    destruct r as [m|e]; simpl; unfold deliver; run_cmd;
      match goal with |- context [mac_filtered ?a ?b] =>
        destruct (mac_filtered a b) end; simpl.
    + exists ds', []. destruct s; simpl. rewrite app_nil_r. reflexivity.
    + exists ds', [m]. reflexivity.
    + exists ds', []. destruct s; simpl. rewrite app_nil_r. reflexivity.
    + exists ds', [as_message pkt]. reflexivity.
  - exists (decoder_state s), []. apply session_frame_id.
Qed.

Lemma run_jobs_frame (jobs : list BurstJob) (s : Session) :
  exists ds q, fst (run_jobs jobs s)
               = set_pktq (pktq s ++ q) (set_decoder_state ds s).
Proof.
  revert s. induction jobs as [|j rest IH]; intros s; simpl.
  - exists (decoder_state s), []. apply session_frame_id.
  - unfold mbind, cmd_bind.
    destruct (handle_burst_frame j s) as (ds1 & q1 & H1).
    destruct (handle_burst j s) as [s1 [[]|e]]; simpl in H1; subst s1.
    + destruct (IH (set_pktq (pktq s ++ q1) (set_decoder_state ds1 s)))
        as (ds2 & q2 & H2).
      exists ds2, (q1 ++ q2). rewrite H2. apply session_frame_compose.
    + exists ds1, q1. reflexivity.
Qed.

(** ** MAC filtering *)

Lemma deliver_unfold (dpkt : Message) (s : Session) :
  deliver dpkt s =
    if mac_filtered (mac s) dpkt then (s, Ok tt)
    else (set_pktq (pktq s ++ [dpkt]) s, Ok tt).
Proof.
  unfold deliver. run_cmd. destruct (mac_filtered (mac s) dpkt); reflexivity.
Qed.

(** C8: with a 6-byte MAC filter configured, an advertisement whose
    advertiser address is the filter is put on the queue and one whose
    (non-null) address is anything else is dropped; an advertisement with a
    null address, every message other than an advertisement, and every
    message when no filter is set, is put on the queue. *)
Theorem mac_filtering (s : Session) (pkt : PacketMessage) :
  (forall f, mac s = Some f -> length f = 6%nat ->
     deliver (Advert pkt (Some f)) s
       = (set_pktq (pktq s ++ [Advert pkt (Some f)]) s, Ok tt)
     /\ (forall a, a <> f -> deliver (Advert pkt (Some a)) s = (s, Ok tt)))
  /\ deliver (Advert pkt None) s
       = (set_pktq (pktq s ++ [Advert pkt None]) s, Ok tt)
  /\ (forall m, (forall p a, m <> Advert p a) ->
        deliver m s = (set_pktq (pktq s ++ [m]) s, Ok tt))
  /\ (mac s = None ->
        forall m, deliver m s = (set_pktq (pktq s ++ [m]) s, Ok tt)).
Proof.
  split; [|split; [|split]].
  - intros f Hmac Hlen. split.
    + rewrite deliver_unfold, Hmac. simpl.
      rewrite bool_decide_eq_true_2 by reflexivity.
      rewrite andb_false_r. reflexivity.
    + intros a Ha. rewrite deliver_unfold, Hmac. simpl.
      destruct f as [|b f']; [discriminate Hlen|]. simpl.
      rewrite bool_decide_eq_false_2 by congruence. reflexivity.
  - rewrite deliver_unfold. reflexivity.
  - intros m Hm. rewrite deliver_unfold.
    destruct m as [|p|p [a|]|p]; try reflexivity.
    exfalso. exact (Hm p (Some a) eq_refl).
  - intros Hnone m. rewrite deliver_unfold, Hnone.
    destruct m as [|p|p [a|]|p]; reflexivity.
Qed.

(** ** Cancelling *)

Lemma thread_rest_frame (t : WorkerThread) (s : Session) :
  worker_running (fst (thread_rest t s)) = worker_running s
  /\ exists enq, pktq (fst (thread_rest t s)) = pktq s ++ enq.
Proof.
  unfold thread_rest. destruct (thread_eof t).
  - simpl. split; [reflexivity|]. exists []. rewrite app_nil_r. reflexivity.
  - destruct (run_jobs_frame (thread_pending t) s) as (ds & q & H).
    rewrite H. simpl. split; [reflexivity|]. exists q. reflexivity.
Qed.

Lemma join_frame (t : WorkerThread) (s : Session) :
  worker_running s = false ->
  snd (join t s) = Ok tt
  /\ worker_running (fst (join t s)) = false
  /\ exists enq, pktq (fst (join t s)) = pktq s ++ enq.
Proof.
  intros Hflag. unfold join.
  destruct (thread_rest_frame t s) as (Hr & q & Hq).
  destruct (thread_rest t s) as [s' [[]|e]]; simpl in *;
    (split; [reflexivity|]); (split; [try reflexivity; congruence|]);
    exists q; exact Hq.
Qed.

Lemma cancel_recv_clears_flag (s : Session) :
  worker_running (fst (cancel_recv s)) = false.
Proof.
  unfold cancel_recv. run_cmd.
  destruct (worker_running s) eqn:Hrun; [|simpl; assumption].
  destruct (worker s) as [t|]; simpl; [|reflexivity].
  destruct (join_frame t (set_worker_running false s) eq_refl) as (Hok & Hflag & _).
  destruct (join t (set_worker_running false s)) as [s' r]; simpl in *; subst r.
  simpl. assumption.
Qed.

(** C7: [cancel_recv] on a session whose worker is not running (a fresh
    session before any receive included) returns with the session, its
    queue included, untouched and raises nothing; on a
    session whose worker is running it clears the flag, joins the thread and
    then puts the sentinel [None] once, behind everything the thread queued
    while it was joined, so that [pktq.get()] does not block; a cancel after
    a cancel changes nothing. *)
Theorem cancel_recv_idempotent (s : Session) :
  cancel_recv init_file = (init_file, Ok tt)
  /\ (worker_running s = false -> cancel_recv s = (s, Ok tt))
  /\ (forall t, worker_running s = true -> worker s = Some t ->
        let joined := fst (join t (set_worker_running false s)) in
        cancel_recv s = (set_pktq (pktq joined ++ [PyNone]) joined, Ok tt)
        /\ worker_running joined = false
        /\ (exists enq, pktq joined = pktq s ++ enq)
        /\ is_Some (pktq_get (fst (cancel_recv s))))
  /\ cancel_recv (fst (cancel_recv s)) = (fst (cancel_recv s), Ok tt).
Proof.
  assert (Hidle : forall s0, worker_running s0 = false -> cancel_recv s0 = (s0, Ok tt)).
  { intros s0 H. unfold cancel_recv. run_cmd. rewrite H. reflexivity. }
  split; [apply Hidle; reflexivity|].
  split; [apply Hidle|]. split; [|apply Hidle, cancel_recv_clears_flag].
  intros t Hrun Hw joined.
  destruct (join_frame t (set_worker_running false s) eq_refl) as (Hok & Hflag & Henq).
  assert (Hrun' : cancel_recv s = (set_pktq (pktq joined ++ [PyNone]) joined, Ok tt)).
  { unfold cancel_recv. run_cmd. rewrite Hrun, Hw. simpl.
    subst joined.
    destruct (join t (set_worker_running false s)) as [s' r]; simpl in *; subst r.
    reflexivity. }
  repeat split; try assumption.
  rewrite Hrun'. unfold pktq_get. simpl.
  destruct (pktq joined); simpl; eexists; reflexivity.
Qed.

End Worker.

Section Pipeline.

Context `{Env : Collaborators}.

(** ** Python operations that succeed *)

Lemma div_ok (a b : Q) : ~ (b == 0)%Q -> div a b = Ok (a / b)%Q.
Proof.
  intros H. unfold div. destruct (Qeq_bool b 0) eqn:E; [|reflexivity].
  apply Qeq_bool_iff in E. contradiction.
Qed.

Lemma symbol_rate_nonzero (phy' : Z) : ~ (symbol_rate_of phy' == 0)%Q.
Proof.
  unfold symbol_rate_of. destruct (phy' =? PHY_2M); intros H;
    vm_compute in H; discriminate H.
Qed.

Lemma resampled_rate_nonzero (burst : Burst) (fs' : Q) :
  ~ (fst (resampled burst fs') == 0)%Q.
Proof.
  unfold resampled, Qltb. destruct (Qle_bool 4e6 fs') eqn:E; simpl.
  - apply Qle_bool_iff in E. intros H. rewrite H in E.
    vm_compute in E. apply E. reflexivity.
  - apply resample_rate_nonzero.
Qed.

Lemma byte_val_range (b : byte) : 0 <= byte_val b < 256.
Proof.
  unfold byte_val. pose proof (Byte.to_N_bounded b). lia.
Qed.

Lemma getitem_lookup {A} (l : list A) (n : nat) (x : A) :
  l !! n = Some x -> getitem l (Z.of_nat n) = Ok x.
Proof.
  intros H. pose proof (lookup_lt_Some _ _ _ H) as Hlt.
  unfold getitem, position, len.
  unfold index_position.
  destruct (0 <=? Z.of_nat n) eqn:E1; [|apply Z.leb_gt in E1; lia].
  destruct (Z.of_nat n <? Z.of_nat (length l)) eqn:E2; [|apply Z.ltb_ge in E2; lia].
  simpl. rewrite Nat2Z.id, H. reflexivity.
Qed.

Lemma getitem_second {A} (l : list A) (x : A) :
  l !! 1%nat = Some x -> getitem l 1 = Ok x.
Proof. exact (getitem_lookup l 1 x). Qed.

Lemma slice_prefix {A} (l : list A) (n : Z) :
  0 <= n -> slice l 0 n = take (Z.to_nat n) l.
Proof.
  intros Hn. unfold slice, clamp, len.
  change (0 <? 0) with false. cbv iota.
  destruct (n <? 0) eqn:E; [apply Z.ltb_lt in E; lia|].
  rewrite (Z.min_l 0) by lia. rewrite Z.sub_0_r.
  change (Z.to_nat 0) with 0%nat. rewrite drop_0.
  destruct (Z.min_spec n (Z.of_nat (length l))) as [[Hlt ->]|[Hge ->]];
    [reflexivity|].
  rewrite Nat2Z.id.
  rewrite (take_ge l (length l)) by lia.
  rewrite (take_ge l (Z.to_nat n)) by lia. reflexivity.
Qed.

Lemma slice_window {A} (l : list A) (lo hi : Z) :
  0 <= lo <= hi -> hi <= len l ->
  slice l lo hi = take (Z.to_nat (hi - lo)) (drop (Z.to_nat lo) l).
Proof.
  intros [Hlo Hhi] Hlen. unfold slice, clamp.
  destruct (hi <? 0) eqn:E1; [apply Z.ltb_lt in E1; lia|].
  destruct (lo <? 0) eqn:E2; [apply Z.ltb_lt in E2; lia|].
  rewrite !Z.min_l by lia. reflexivity.
Qed.

(** ** The length test and the packet *)

Lemma too_short_spec (data_dw : list byte) :
  too_short data_dw = Ok (malformedb data_dw).
Proof.
  unfold too_short, malformedb, length_byte.
  destruct (len data_dw <? 2) eqn:E; [reflexivity|].
  apply Z.ltb_ge in E. unfold len in E.
  destruct (data_dw !! 1%nat) as [b|] eqn:Hb.
  - rewrite (getitem_second data_dw b Hb). reflexivity.
  - apply lookup_ge_None in Hb. lia.
Qed.

Lemma malformedb_spec (data_dw : list byte) :
  malformedb data_dw = true <-> malformed data_dw.
Proof.
  unfold malformedb, malformed. rewrite orb_true_iff, !Z.ltb_lt. reflexivity.
Qed.

Lemma malformedb_false (data_dw : list byte) :
  malformedb data_dw = false <-> ~ malformed data_dw.
Proof.
  rewrite <- malformedb_spec. destruct (malformedb data_dw); split;
    congruence.
Qed.

Lemma well_formed_lengths (data_dw : list byte) :
  ~ malformed data_dw ->
  (exists b, data_dw !! 1%nat = Some b /\ byte_val b = length_byte data_dw)
  /\ len (body_of data_dw) = length_byte data_dw + 2
  /\ length (crc_bytes_of data_dw) = 3%nat.
Proof.
  unfold malformed, body_of, crc_bytes_of, length_byte, len. intros H.
  destruct (data_dw !! 1%nat) as [b|] eqn:Hb.
  - pose proof (byte_val_range b). split; [eauto|].
    rewrite length_take, length_take, length_drop. lia.
  - apply lookup_ge_None in Hb. lia.
Qed.

Lemma crc_of_bytes_spec (bs : list byte) :
  length bs = 3%nat -> crc_of_bytes bs = Ok (le24 bs).
Proof.
  destruct bs as [|c0 [|c1 [|c2 [|]]]]; try discriminate. reflexivity.
Qed.

Lemma build_packet_spec (self : Session) (chan' : Z) (t_sync : Q) (rssi : Z)
    (data_dw : list byte) :
  ~ malformed data_dw ->
  build_packet self chan' t_sync rssi data_dw =
    Ok (if validate_crc self
           && negb (crc_calc_of self data_dw =? crc_rev_of data_dw)
        then Rejected CrcMismatch
        else Produced (packet_of self chan' t_sync rssi data_dw)).
Proof.
  intros Hwf. destruct (well_formed_lengths data_dw Hwf) as ((b & Hb & Hn) & Hbody & Hcrc).
  assert (Hlen : 5 + length_byte data_dw <= len data_dw)
    by (unfold malformed in Hwf; lia).
  pose proof (byte_val_range b) as Hr.
  unfold build_packet. rewrite (getitem_second data_dw b Hb). run_cmd.
  rewrite Hn. rewrite slice_prefix by lia.
  rewrite slice_window by lia.
  replace (length_byte data_dw + 5 - (length_byte data_dw + 2)) with 3 by lia.
  change (Z.to_nat 3) with 3%nat.
  fold (body_of data_dw). fold (crc_bytes_of data_dw).
  rewrite (crc_of_bytes_spec _ Hcrc). simpl.
  fold (crc_rev_of data_dw). fold (crc_calc_of self data_dw).
  destruct (validate_crc self && negb (crc_calc_of self data_dw =? crc_rev_of data_dw));
    reflexivity.
Qed.

(** [process_burst] runs the four gates in order and never raises. *)
Lemma process_burst_steps_gates (self : Session) (chan' : Z) (t_burst : Q)
    (burst : Burst) (fs' cfo : Q) (phy' : Z) :
  process_burst_steps self chan' t_burst burst fs' cfo phy'
  = Ok (gates self chan' t_burst burst fs' cfo phy').
Proof.
  unfold process_burst_steps, gates, syms_of, sync_time.
  destruct (demodulated burst fs' cfo phy') as [samp_offset syms]. simpl.
  destruct (find_sync32 syms (aa self)) as [sym_offset|]; [|reflexivity].
  destruct (burst_rssi self burst <? rssi_min self); [reflexivity|].
  rewrite (div_ok _ _ (resampled_rate_nonzero burst fs')).
  rewrite (div_ok _ _ (symbol_rate_nonzero phy')). run_cmd.
  rewrite too_short_spec.
  destruct (malformedb (dewhitened syms sym_offset chan')) eqn:Hm; [reflexivity|].
  apply malformedb_false in Hm. rewrite (build_packet_spec _ _ _ _ _ Hm).
  reflexivity.
Qed.

Lemma process_burst_gates (self : Session) (chan' : Z) (t_burst : Q)
    (burst : Burst) (fs' cfo : Q) (phy' : Z) :
  process_burst self chan' t_burst burst fs' cfo phy'
  = Ok (returned (gates self chan' t_burst burst fs' cfo phy')).
Proof. unfold process_burst. rewrite process_burst_steps_gates. reflexivity. Qed.

(** ** Truncation of the RSSI *)

Lemma int_inject_Z (x : Q) (z : Z) : (x == inject_Z z)%Q -> int x = z.
Proof.
  unfold Qeq, int. simpl. intros H. rewrite Z.mul_1_r in H. rewrite H.
  apply Z.quot_mul. discriminate.
Qed.

Lemma int_le_below (x : Q) (z : Z) : (x <= inject_Z z)%Q -> int x <= z.
Proof.
  unfold Qle, int. simpl. intros H. rewrite Z.mul_1_r in H.
  rewrite <- (Z.quot_mul z (Z.pos (Qden x))) by discriminate.
  apply Z.quot_le_mono; [reflexivity|assumption].
Qed.

(** Truncation is toward zero: below a bound that is zero or negative it
    rounds up, so only a value a whole unit below the bound falls below it;
    below a positive bound nothing changes. *)
Lemma int_lt_nonpos (x : Q) (z : Z) :
  z <= 0 -> (int x < z <-> (x <= inject_Z (z - 1))%Q).
Proof.
  intros Hz. split; [|intros H; apply int_le_below in H; lia].
  unfold Qle, int. destruct x as [a b]. simpl. intros H.
  Z.to_euclidean_division_equations. nia.
Qed.

Lemma int_lt_pos (x : Q) (z : Z) :
  0 < z -> (int x < z <-> (x < inject_Z z)%Q).
Proof.
  intros Hz. unfold Qlt, int. destruct x as [a b]. simpl.
  Z.to_euclidean_division_equations. nia.
Qed.

(** A raw RSSI exactly at the floor gives the floor; one a decibel or more
    below it gives an RSSI below the floor. *)
Lemma burst_rssi_at_floor (self : Session) (burst : Burst) :
  (calc_rssi burst - inject_Z (gain self) == inject_Z (rssi_min self))%Q ->
  burst_rssi self burst = rssi_min self.
Proof. apply int_inject_Z. Qed.

Lemma burst_rssi_decibel_below (self : Session) (burst : Burst) :
  (calc_rssi burst - inject_Z (gain self) <= inject_Z (rssi_min self - 1))%Q ->
  burst_rssi self burst < rssi_min self.
Proof. intros H. apply int_le_below in H. unfold burst_rssi. lia. Qed.

(** [process_burst] returns [None] exactly for the four rejections, and
    raises in no case. *)
Lemma process_burst_never_raises (self : Session) (chan' : Z) (t_burst : Q)
    (burst : Burst) (fs' cfo : Q) (phy' : Z) :
  exists r, process_burst self chan' t_burst burst fs' cfo phy' = Ok r.
Proof. rewrite process_burst_gates. eexists. reflexivity. Qed.

Lemma process_burst_none_iff (self : Session) (chan' : Z) (t_burst : Q)
    (burst : Burst) (fs' cfo : Q) (phy' : Z) :
  process_burst self chan' t_burst burst fs' cfo phy' = Ok None
  <-> exists why,
        process_burst_steps self chan' t_burst burst fs' cfo phy'
        = Ok (Rejected why).
Proof.
  rewrite process_burst_gates, process_burst_steps_gates.
  destruct (gates self chan' t_burst burst fs' cfo phy') as [why|pkt]; simpl.
  - split; [eauto|reflexivity].
  - split; [discriminate|]. intros [why H]. discriminate H.
Qed.

(** ** The gates, one by one *)

(** C3, as corrected: the RSSI gate is boundary-inclusive on the integer
    RSSI that the code computes, [int(calc_rssi(burst) - self.gain)], from
    the burst as received (before resampling) and truncated toward zero.
    With the sync word found, a burst is rejected for its RSSI exactly when
    this integer is strictly below the floor; at the floor it passes the
    gate, and if it also passes the length and CRC gates the packet carries
    that RSSI.  In terms of the value before truncation: exactly at the
    floor it is accepted; with a floor of zero or below the burst is
    rejected exactly when the value is a decibel or more below the floor
    (less than a decibel below, it truncates to the floor and passes); with
    a floor above zero exactly when the value is strictly below it. *)
Theorem rssi_gate (self : Session) (chan' : Z) (t_burst : Q) (burst : Burst)
    (fs' cfo : Q) (phy' : Z) (sym_offset : Z) :
  let syms := syms_of burst fs' cfo phy' in
  let data_dw := dewhitened syms sym_offset chan' in
  let raw := (calc_rssi burst - inject_Z (gain self))%Q in
  let rssi := int raw in
  find_sync32 syms (aa self) = Some sym_offset ->
  (process_burst_steps self chan' t_burst burst fs' cfo phy'
     = Ok (Rejected RssiBelowFloor) <-> rssi < rssi_min self)
  /\ (rssi < rssi_min self ->
        process_burst self chan' t_burst burst fs' cfo phy' = Ok None)
  /\ (rssi = rssi_min self ->
        process_burst_steps self chan' t_burst burst fs' cfo phy'
          <> Ok (Rejected RssiBelowFloor)
        /\ (~ malformed data_dw ->
            validate_crc self = false
            \/ crc_calc_of self data_dw = crc_rev_of data_dw ->
            exists pkt,
              process_burst self chan' t_burst burst fs' cfo phy' = Ok (Some pkt)
              /\ pkt_rssi pkt = rssi_min self))
  /\ ((raw == inject_Z (rssi_min self))%Q -> rssi = rssi_min self)
  /\ (rssi_min self <= 0 ->
        (rssi < rssi_min self <-> (raw <= inject_Z (rssi_min self - 1))%Q))
  /\ (0 < rssi_min self ->
        (rssi < rssi_min self <-> (raw < inject_Z (rssi_min self))%Q)).
Proof.
  intros syms data_dw raw rssi Hsync.
  assert (Hraw : ((raw == inject_Z (rssi_min self))%Q -> rssi = rssi_min self)
                 /\ (rssi_min self <= 0 ->
                       (rssi < rssi_min self
                        <-> (raw <= inject_Z (rssi_min self - 1))%Q))
                 /\ (0 < rssi_min self ->
                       (rssi < rssi_min self
                        <-> (raw < inject_Z (rssi_min self))%Q))).
  { split; [apply int_inject_Z|].
    split; [apply int_lt_nonpos|apply int_lt_pos]. }
  rewrite process_burst_gates, process_burst_steps_gates.
  unfold gates. fold syms. rewrite Hsync. fold data_dw.
  change (burst_rssi self burst) with rssi.
  clearbody rssi. clearbody raw.
  destruct (rssi <? rssi_min self) eqn:E.
  - apply Z.ltb_lt in E. split; [split; [intros _; exact E|reflexivity]|].
    split; [reflexivity|]. split; [lia|exact Hraw].
  - apply Z.ltb_ge in E. split.
    { split; [|lia]. intros H.
      destruct (malformedb data_dw);
        [|destruct (validate_crc self && _)]; inversion H. }
    split; [lia|]. split; [|exact Hraw]. intros Heq. split.
    { intros H.
      destruct (malformedb data_dw);
        [|destruct (validate_crc self && _)]; inversion H. }
    intros Hwf Hcrc. apply malformedb_false in Hwf. rewrite Hwf.
    assert (Hc : validate_crc self
                 && negb (crc_calc_of self data_dw =? crc_rev_of data_dw) = false).
    { destruct Hcrc as [-> | ->]; [reflexivity|].
      rewrite Z.eqb_refl. apply andb_false_r. }
    rewrite Hc. eexists. split; [reflexivity|]. simpl. assumption.
Qed.


(** C2: for a burst that reaches the CRC test (sync found, RSSI at or above
    the floor, length well-formed): when the CRC computed over the body
    differs from the received one, the burst is rejected if CRC validation
    is enabled and a packet with the CRC-mismatch flag set is produced if it
    is disabled; when the two agree a packet with the flag clear is
    produced. *)
Theorem crc_gate (self : Session) (chan' : Z) (t_burst : Q) (burst : Burst)
    (fs' cfo : Q) (phy' : Z) (sym_offset : Z) :
  let syms := syms_of burst fs' cfo phy' in
  let data_dw := dewhitened syms sym_offset chan' in
  let crc_calc := crc_ble_reverse (crci_rev self) (body_of data_dw) in
  let crc_rev := le24 (crc_bytes_of data_dw) in
  find_sync32 syms (aa self) = Some sym_offset ->
  rssi_min self <= burst_rssi self burst ->
  ~ malformed data_dw ->
  (crc_calc <> crc_rev -> validate_crc self = true ->
     process_burst_steps self chan' t_burst burst fs' cfo phy'
       = Ok (Rejected CrcMismatch)
     /\ process_burst self chan' t_burst burst fs' cfo phy' = Ok None)
  /\ (crc_calc <> crc_rev -> validate_crc self = false ->
        exists pkt,
          process_burst self chan' t_burst burst fs' cfo phy' = Ok (Some pkt)
          /\ pkt_crc_err pkt = true /\ pkt_crc_rev pkt = crc_rev)
  /\ (crc_calc = crc_rev ->
        exists pkt,
          process_burst self chan' t_burst burst fs' cfo phy' = Ok (Some pkt)
          /\ pkt_crc_err pkt = false /\ pkt_crc_rev pkt = crc_rev).
Proof.
  intros syms data_dw crc_calc crc_rev Hsync Hrssi Hwf.
  rewrite process_burst_gates, process_burst_steps_gates.
  unfold gates. fold syms. rewrite Hsync. fold data_dw.
  apply Z.ltb_ge in Hrssi. rewrite Hrssi.
  apply malformedb_false in Hwf. rewrite Hwf.
  change (crc_calc_of self data_dw) with crc_calc.
  change (crc_rev_of data_dw) with crc_rev.
  unfold packet_of.
  change (crc_calc_of self data_dw) with crc_calc.
  change (crc_rev_of data_dw) with crc_rev.
  clearbody crc_calc crc_rev.
  split; [|split].
  - intros Hne Hv. apply Z.eqb_neq in Hne. rewrite Hv, Hne. simpl.
    split; reflexivity.
  - intros Hne Hv. apply Z.eqb_neq in Hne. rewrite Hv, Hne. simpl.
    eexists. split; [reflexivity|]. simpl. split; reflexivity.
  - intros Heq. apply Z.eqb_eq in Heq. rewrite Heq. simpl.
    rewrite andb_false_r. eexists. split; [reflexivity|]. simpl.
    split; reflexivity.
Qed.

End Pipeline.

Section Streaming.

Context `{Env : Collaborators}.

Lemma burst_packet_gates (j : BurstJob) (s : Session) :
  ~ (job_fs_decim j == 0)%Q ->
  burst_packet j s =
    Ok (returned (gates s (job_chan j) (burst_time j) (job_burst j)
                    (job_fs_decim j) (job_cfo j) PHY_1M)).
Proof.
  intros H. unfold burst_packet. rewrite (div_ok _ _ H). run_cmd.
  apply process_burst_gates.
Qed.

Lemma handle_burst_unfold (j : BurstJob) (s : Session) (pkt : option PacketMessage) :
  burst_packet j s = Ok pkt ->
  handle_burst j s =
    let '(ds', r) := decode pkt (decoder_state s) in
    deliver (match r with Ok dpkt => dpkt | Raised _ => as_message pkt end)
      (set_decoder_state ds' s).
Proof.
  intros H. unfold handle_burst. run_cmd. rewrite H. simpl.
  unfold decoded. run_cmd.
  destruct (decode pkt (decoder_state s)) as [ds' [m|e]]; reflexivity.
Qed.

Lemma handle_burst_returns (j : BurstJob) (s : Session) :
  ~ (job_fs_decim j == 0)%Q -> snd (handle_burst j s) = Ok tt.
Proof.
  intros H. rewrite (handle_burst_unfold j s _ (burst_packet_gates j s H)).
  destruct (decode _ (decoder_state s)) as [ds' r].
  rewrite deliver_unfold. destruct (mac_filtered _ _); reflexivity.
Qed.

(** The loop over the bursts of a buffer runs to its end, whatever the
    decoder does. *)
Lemma run_jobs_returns (jobs : list BurstJob) (s : Session) :
  Forall (fun j => ~ (job_fs_decim j == 0)%Q) jobs ->
  snd (run_jobs jobs s) = Ok tt.
Proof.
  intros H. revert s. induction H as [|j rest Hj _ IH]; intros s; simpl.
  - reflexivity.
  - unfold mbind, cmd_bind. pose proof (handle_burst_returns j s Hj) as Hr.
    destruct (handle_burst j s) as [s1 r]. simpl in Hr. subst r. apply IH.
Qed.

(** C1 (code defect): a burst that [process_burst] rejects, for any of the
    four reasons, makes [process_burst] return [None] without raising; but
    the worker does not test for [None]: it hands it to the decoder, and
    when the decoder raises on it the worker puts [None] on the packet
    queue for that burst. *)
Theorem rejected_burst_is_queued (j : BurstJob) (s : Session)
    (why : RejectReason) (ds' : DecoderState) (e : exn) :
  ~ (job_fs_decim j == 0)%Q ->
  process_burst_steps s (job_chan j) (burst_time j) (job_burst j)
    (job_fs_decim j) (job_cfo j) PHY_1M = Ok (Rejected why) ->
  decode None (decoder_state s) = (ds', Raised e) ->
  process_burst s (job_chan j) (burst_time j) (job_burst j)
    (job_fs_decim j) (job_cfo j) PHY_1M = Ok None
  /\ handle_burst j s
     = (set_pktq (pktq s ++ [PyNone]) (set_decoder_state ds' s), Ok tt).
Proof.
  intros Hfs Hrej Hdec.
  assert (Hnone : process_burst s (job_chan j) (burst_time j) (job_burst j)
                    (job_fs_decim j) (job_cfo j) PHY_1M = Ok None).
  { unfold process_burst. rewrite Hrej. reflexivity. }
  split; [exact Hnone|].
  assert (Hpkt : burst_packet j s = Ok None).
  { rewrite burst_packet_gates by assumption.
    rewrite process_burst_gates in Hnone. exact Hnone. }
  rewrite (handle_burst_unfold j s None Hpkt), Hdec.
  rewrite deliver_unfold. reflexivity.
Qed.

(** The same burst with a decoder that returns a message for [None]: that
    message goes through the MAC filter to the queue. *)
Lemma rejected_burst_is_decoded (j : BurstJob) (s : Session)
    (ds' : DecoderState) (m : Message) :
  burst_packet j s = Ok None ->
  decode None (decoder_state s) = (ds', Ok m) ->
  handle_burst j s = deliver m (set_decoder_state ds' s).
Proof.
  intros Hpkt Hdec. rewrite (handle_burst_unfold j s None Hpkt), Hdec.
  reflexivity.
Qed.

(** C9: when the decoder raises on a packet that the burst pipeline
    produced, the worker puts that packet, as produced, on the queue, and
    the loop goes on with the next burst; the loop itself returns without an
    exception whatever the decoder does. *)
Theorem decode_failure_forwards_raw (j : BurstJob) (rest : list BurstJob)
    (s : Session) (pkt : PacketMessage) (ds' : DecoderState) (e : exn) :
  burst_packet j s = Ok (Some pkt) ->
  decode (Some pkt) (decoder_state s) = (ds', Raised e) ->
  let s' := set_pktq (pktq s ++ [Raw pkt]) (set_decoder_state ds' s) in
  handle_burst j s = (s', Ok tt)
  /\ run_jobs (j :: rest) s = run_jobs rest s'
  /\ (Forall (fun j' => ~ (job_fs_decim j' == 0)%Q) rest ->
      snd (run_jobs (j :: rest) s) = Ok tt).
Proof.
  intros Hpkt Hdec s'.
  assert (Hstep : handle_burst j s = (s', Ok tt)).
  { rewrite (handle_burst_unfold j s _ Hpkt), Hdec.
    rewrite deliver_unfold. reflexivity. }
  assert (Hloop : run_jobs (j :: rest) s = run_jobs rest s').
  { simpl. unfold mbind, cmd_bind. rewrite Hstep. reflexivity. }
  split; [exact Hstep|]. split; [exact Hloop|].
  intros Hrest. rewrite Hloop. apply run_jobs_returns. exact Hrest.
Qed.

(** Only the advertising channels of the plan give the worker bursts. *)
Lemma buffer_jobs_advertising (t_start fs_decim : Q) (channels_cfo : list Q)
    (detected : Z -> list (Z * Burst)) (channels : list (option Z)) :
  forall (i : Z) (jobs : list BurstJob),
    buffer_jobs t_start fs_decim channels_cfo detected i channels = Ok jobs ->
    Forall (fun j => 37 <= job_chan j /\ job_fs_decim j = fs_decim) jobs.
Proof.
  induction channels as [|c rest IH]; intros i jobs; simpl.
  - intros [= <-]. constructor.
  - run_cmd.
    assert (Hhere : forall here,
      match c with
      | Some c' =>
          if c' <? 37 then Ok []
          else
            match getitem channels_cfo i with
            | Ok cfo =>
                Ok (map (fun sb : Z * Burst =>
                           {| job_chan := c'; job_t_start := t_start;
                              job_start_idx := fst sb; job_burst := snd sb;
                              job_fs_decim := fs_decim; job_cfo := cfo |})
                      (detected i))
            | Raised e => Raised e
            end
      | None => Ok []
      end = Ok here ->
      Forall (fun j => 37 <= job_chan j /\ job_fs_decim j = fs_decim) here).
    { intros here. destruct c as [c'|]; [|intros [= <-]; constructor].
      destruct (Z.ltb_spec c' 37); [intros [= <-]; constructor|].
      destruct (getitem channels_cfo i); [|discriminate].
      intros [= <-]. apply Forall_forall. intros j Hj.
      apply in_map_iff in Hj as (sb & <- & _). simpl. split; [lia|reflexivity]. }
    match goal with |- match ?h with _ => _ end = _ -> _ =>
      destruct h as [here|] eqn:Eh; [|discriminate] end.
    destruct (buffer_jobs t_start fs_decim channels_cfo detected (i + 1) rest)
      as [later|] eqn:El; [|discriminate].
    intros [= <-]. apply Forall_app. split; [apply Hhere; reflexivity|].
    apply (IH (i + 1)). exact El.
Qed.

(** Every burst of a buffer gets its correction when the plan has one per
    channel. *)
Lemma buffer_jobs_returns (t_start fs_decim : Q) (channels_cfo : list Q)
    (detected : Z -> list (Z * Burst)) (channels : list (option Z)) :
  forall i : Z,
    0 <= i -> i + len channels <= len channels_cfo ->
    exists jobs,
      buffer_jobs t_start fs_decim channels_cfo detected i channels = Ok jobs.
Proof.
  induction channels as [|c rest IH]; intros i Hi Hlen; simpl.
  - eexists. reflexivity.
  - unfold len in *. simpl in Hlen.
    destruct (IH (i + 1)) as [later Hlater]; [lia|lia|].
    rewrite Hlater. run_cmd.
    destruct c as [c'|]; [|eexists; reflexivity].
    destruct (c' <? 37); [eexists; reflexivity|].
    destruct (lookup_lt_is_Some_2 channels_cfo (Z.to_nat i)) as [cfo Hcfo]; [lia|].
    pose proof (getitem_lookup channels_cfo (Z.to_nat i) cfo Hcfo) as Hget.
    rewrite Z2Nat.id in Hget by lia. rewrite Hget. eexists. reflexivity.
Qed.

(** Lines 176-180 change nothing of the session; they raise when the
    single-channel path divides by a zero sample rate. *)
Lemma channelize_unfold (s : Session) :
  channelize s
  = (s, if use_channelizer s then Ok tt
        else match div (1.6e6 * 4) (fs s) with
             | Ok _ => Ok tt
             | Raised e => Raised e
             end).
Proof.
  unfold channelize. run_cmd. destruct (use_channelizer s); [reflexivity|].
  destruct (div _ (fs s)); reflexivity.
Qed.

Lemma channelize_returns (s : Session) :
  use_channelizer s = true \/ ~ (fs s == 0)%Q ->
  channelize s = (s, Ok tt).
Proof.
  intros Hrate. rewrite channelize_unfold.
  destruct (use_channelizer s); [reflexivity|].
  destruct Hrate as [Hwide|Hfs]; [discriminate Hwide|].
  unfold div. destruct (Qeq_bool (fs s) 0) eqn:E; [|reflexivity].
  apply Qeq_bool_eq in E. contradiction.
Qed.

(** One pass of the loop over a buffer of samples. *)
Lemma capture_loop_chunk (t_start fs_decim : Q) (channels : list (option Z))
    (channels_cfo : list Q) (detected : Z -> list (Z * Burst))
    (rest : list Read) (s : Session) :
  capture_loop t_start fs_decim channels channels_cfo (Chunk detected :: rest) s
  = if worker_running s then
      match snd (channelize s) with
      | Raised e => (s, Raised e)
      | Ok _ =>
          match buffer_jobs t_start fs_decim channels_cfo detected 0 channels with
          | Raised e => (s, Raised e)
          | Ok jobs =>
              match run_jobs jobs s with
              | (s1, Ok _) =>
                  capture_loop t_start fs_decim channels channels_cfo rest s1
              | (s1, Raised e) => (s1, Raised e)
              end
          end
      end
    else (s, Ok tt).
Proof.
  rewrite channelize_unfold. simpl. unfold mbind at 1, cmd_bind at 1. simpl.
  destruct (worker_running s); simpl; [|reflexivity].
  unfold mbind at 1, cmd_bind at 1. rewrite channelize_unfold.
  destruct (use_channelizer s); simpl.
  - unfold mbind at 1, cmd_bind at 1, lift.
    destruct (buffer_jobs _ _ _ _ _ _); reflexivity.
  - destruct (div _ (fs s)); simpl; [|reflexivity].
    unfold mbind at 1, cmd_bind at 1, lift.
    destruct (buffer_jobs _ _ _ _ _ _); reflexivity.
Qed.

(** The capture loop raises nothing, whatever the bursts are and whatever
    the decoder does with the packets, when no chunk is cut inside a sample
    and the single-channel path has a sample rate to divide by. *)
Lemma capture_loop_returns (t_start fs_decim : Q) (channels : list (option Z))
    (channels_cfo : list Q) (reads : list Read) (s : Session) :
  ~ (fs_decim == 0)%Q -> len channels <= len channels_cfo ->
  Forall (fun rd => rd <> PartialSample) reads ->
  use_channelizer s = true \/ ~ (fs s == 0)%Q ->
  snd (capture_loop t_start fs_decim channels channels_cfo reads s) = Ok tt.
Proof.
  intros Hfs Hlen Hreads. revert s.
  induction Hreads as [|rd rest Hrd _ IH]; intros s Hrate.
  - simpl. run_cmd. destruct (worker_running s); reflexivity.
  - destruct rd as [| | |detected].
    + simpl. run_cmd. destruct (worker_running s); reflexivity.
    + simpl. run_cmd. destruct (worker_running s); reflexivity.
    + exfalso. apply Hrd. reflexivity.
    + rewrite capture_loop_chunk. destruct (worker_running s); [|reflexivity].
      rewrite (channelize_returns s Hrate). simpl.
      destruct (buffer_jobs_returns t_start fs_decim channels_cfo detected channels 0)
        as [jobs Hjobs]; [lia|lia|].
      rewrite Hjobs.
      assert (Hall : Forall (fun j => ~ (job_fs_decim j == 0)%Q) jobs).
      { pose proof (buffer_jobs_advertising _ _ _ _ _ _ _ Hjobs) as Hadv.
        clear Hjobs.
        induction Hadv as [|j jobs' [_ Hj] _ IHj];
          [constructor|constructor; [rewrite Hj; exact Hfs|exact IHj]]. }
      pose proof (run_jobs_returns jobs s Hall) as Hrun.
      destruct (run_jobs_frame jobs s) as (ds & q & Hframe).
      destruct (run_jobs jobs s) as [s1 r]. simpl in Hrun, Hframe. subst r s1.
      apply IH. exact Hrate.
Qed.

(** ** The PHY of the worker's call *)

Lemma gates_set_phy (p : Z) (s : Session) (chan' : Z) (t_burst : Q)
    (burst : Burst) (fs' cfo : Q) (phy' : Z) :
  returned (gates (set_phy p s) chan' t_burst burst fs' cfo phy')
  = match returned (gates s chan' t_burst burst fs' cfo phy') with
    | Some pkt => Some (with_phy p pkt)
    | None => None
    end.
Proof.
  unfold gates. simpl.
  destruct (find_sync32 _ (aa s)) as [off|]; [|reflexivity].
  change (burst_rssi (set_phy p s) burst) with (burst_rssi s burst).
  destruct (burst_rssi s burst <? rssi_min s); [reflexivity|].
  destruct (malformedb _); [reflexivity|].
  change (crc_calc_of (set_phy p s)) with (crc_calc_of s).
  destruct (validate_crc s && _); reflexivity.
Qed.

(** C10: the worker calls [process_burst] with the default PHY: the burst
    is demodulated at the 1 Msym/s symbol rate of [PhyMode.PHY_1M] whatever
    PHY the session is set to, and the session PHY only becomes the PHY
    field of the packet. *)
Theorem worker_demodulates_at_1M (j : BurstJob) (s : Session) :
  (forall t_off,
     div (inject_Z (job_start_idx j)) (job_fs_decim j) = Ok t_off ->
     burst_packet j s
     = process_burst s (job_chan j) (job_t_start j + t_off)%Q (job_burst j)
         (job_fs_decim j) (job_cfo j) PHY_1M)
  /\ (forall p, burst_packet j (set_phy p s) = retagged p (burst_packet j s))
  /\ (forall pkt,
        burst_packet j s = Ok (Some pkt) ->
        pkt_phy pkt = phy s
        /\ exists sym_offset,
             let '(fs_resamp, burst_resamp) :=
               resampled (job_burst j) (job_fs_decim j) in
             let syms :=
               snd (fsk_decode burst_resamp fs_resamp 1e6%Q true (job_cfo j)) in
             find_sync32 syms (aa s) = Some sym_offset
             /\ pkt_body pkt = body_of (dewhitened syms sym_offset (job_chan j))).
Proof.
  split; [|split].
  - intros t_off Hdiv. unfold burst_packet. rewrite Hdiv. reflexivity.
  - intros p. unfold burst_packet.
    destruct (div (inject_Z (job_start_idx j)) (job_fs_decim j)) as [t_off|e];
      [|reflexivity].
    run_cmd. rewrite !process_burst_gates, gates_set_phy.
    destruct (returned _); reflexivity.
  - intros pkt Hpkt. unfold burst_packet in Hpkt.
    destruct (div (inject_Z (job_start_idx j)) (job_fs_decim j)) as [t_off|e];
      [|discriminate Hpkt].
    revert Hpkt. run_cmd. rewrite process_burst_gates.
    unfold gates, syms_of, demodulated.
    change (symbol_rate_of PHY_1M) with 1e6%Q.
    destruct (resampled (job_burst j) (job_fs_decim j)) as [fs_resamp burst_resamp].
    destruct (find_sync32 _ (aa s)) as [off|]; [|discriminate].
    destruct (burst_rssi s (job_burst j) <? rssi_min s); [discriminate|].
    destruct (malformedb _); [discriminate|].
    destruct (validate_crc s && _); [discriminate|].
    intros H. inversion H. simpl. split; [reflexivity|].
    exists off. split; reflexivity.
Qed.

End Streaming.

Section Plan.

Context `{Env : Collaborators}.

Lemma for_each_invariant {S A} (body : S -> A -> outcome S)
    (I : list A -> S -> Prop) (l : list A) (s0 : S) :
  I [] s0 ->
  (forall done a rest s, l = done ++ a :: rest -> I done s ->
     exists s', body s a = Ok s' /\ I (done ++ [a]) s') ->
  exists s', for_each body l s0 = Ok s' /\ I l s'.
Proof.
  intros H0 Hstep.
  assert (G : forall rest done s, l = done ++ rest -> I done s ->
              exists s', for_each body rest s = Ok s' /\ I l s').
  { induction rest as [|a rest IH]; intros done s Hl HI; simpl.
    - rewrite app_nil_r in Hl. subst l. eauto.
    - destruct (Hstep done a rest s Hl HI) as (s1 & Hb & HI1).
      rewrite Hb. simpl. apply (IH (done ++ [a])); [|exact HI1].
      rewrite <- app_assoc. exact Hl. }
  apply (G l [] s0); [reflexivity|exact H0].
Qed.

Lemma elem_of_range (lo hi r : Z) : r ∈ range lo hi <-> lo <= r < hi.
Proof. unfold range. rewrite elem_of_seqZ. lia. Qed.

Lemma index_position_lt (n i : Z) (p : nat) :
  index_position n i = Some p -> Z.of_nat p < n.
Proof.
  unfold index_position.
  destruct ((0 <=? i) && (i <? n)) eqn:E1.
  - apply andb_prop in E1 as [?%Z.leb_le ?%Z.ltb_lt]. intros [= <-]. lia.
  - destruct ((- n <=? i) && (i <? 0)) eqn:E2; [|discriminate].
    apply andb_prop in E2 as [?%Z.leb_le ?%Z.ltb_lt]. intros [= <-]. lia.
Qed.

Lemma getitem_position {A} (l : list A) (i : Z) (p : nat) (x : A) :
  index_position (len l) i = Some p -> l !! p = Some x -> getitem l i = Ok x.
Proof. intros Hp Hx. unfold getitem, position. rewrite Hp, Hx. reflexivity. Qed.

(** [int] rounds down on the numbers that round to at least 1. *)
Lemma int_floor_bounds (x : Q) :
  1 <= int x -> (inject_Z (int x) <= x)%Q /\ (x < inject_Z (int x + 1))%Q.
Proof.
  unfold int, Qle, Qlt. destruct x as [a b]. simpl. intros H.
  assert (Ha : 0 <= a).
  { destruct (Z.le_gt_cases 0 a) as [|Hneg]; [assumption|].
    pose proof (Z.quot_opp_l a (Z.pos b) ltac:(discriminate)) as Ho.
    pose proof (Z.quot_pos (- a) (Z.pos b) ltac:(lia) ltac:(lia)). lia. }
  rewrite Z.quot_div_nonneg in * by lia.
  rewrite !Z.mul_1_r.
  pose proof (Z.mul_div_le a (Z.pos b) ltac:(lia)).
  pose proof (Z.mul_succ_div_gt a (Z.pos b) ltac:(lia)). lia.
Qed.

Section Loop.

Variable self : Session.

Let N := num_channels_of (fs self).
Let rf0 := ble_to_rf_chan (chan self).
Let chan_err := chan_err_of (fs self).

Lemma plan_step_out_of_band (st : list (option Z) * list Q) (r : Z) :
  in_band (rf0 + r) = false -> plan_step self N chan_err st r = Ok st.
Proof.
  intros H. unfold plan_step. fold rf0. fold (in_band (rf0 + r)).
  rewrite H. reflexivity.
Qed.

Lemma plan_step_in_band (chs : list (option Z)) (cfos : list Q) (r : Z) (p : nat) :
  in_band (rf0 + r) = true -> len chs = N -> len cfos = N ->
  index_position N (chan_idx N r) = Some p ->
  plan_step self N chan_err (chs, cfos) r
  = Ok (<[p := Some (rf_to_ble_chan (rf0 + r))]> chs,
        <[p := (inject_Z (- r) * chan_err)%Q]> cfos).
Proof.
  intros H Hl1 Hl2 Hp. unfold plan_step. fold rf0. fold (in_band (rf0 + r)).
  rewrite H. simpl. unfold setitem, position. rewrite Hl1, Hl2, Hp. reflexivity.
Qed.

Lemma plan_invariant_start :
  1 <= N ->
  plan_invariant self []
    (replicate (Z.to_nat N) None, replicate (Z.to_nat N) 0%Q).
Proof.
  intros HN. unfold plan_invariant. fold N. simpl. unfold len.
  rewrite !length_replicate. repeat split; try lia.
  intros p Hp. right. split.
  - intros r Hr. inversion Hr.
  - split; apply lookup_replicate_2; lia.
Qed.

Lemma plan_invariant_step (done : list Z) (r : Z)
    (st : list (option Z) * list Q) :
  is_Some (index_position N (chan_idx N r)) ->
  plan_invariant self done st ->
  exists st', plan_step self N chan_err st r = Ok st'
              /\ plan_invariant self (done ++ [r]) st'.
Proof.
  intros [pr Hpr] (Hl1 & Hl2 & Hinv). fold N in Hl1, Hl2, Hinv.
  fold rf0 in Hinv. destruct st as [chs cfos]. simpl in *.
  destruct (in_band (rf0 + r)) eqn:Hband.
  - rewrite (plan_step_in_band chs cfos r pr Hband Hl1 Hl2 Hpr).
    eexists. split; [reflexivity|].
    unfold plan_invariant. fold N. fold rf0. simpl. unfold len in *.
    rewrite !length_insert. split; [exact Hl1|]. split; [exact Hl2|].
    intros p Hp. destruct (decide (p = pr)) as [->|Hne].
    + left. exists r. split; [apply elem_of_app; right; constructor|].
      split; [exact Hband|]. split; [exact Hpr|].
      split; apply list_lookup_insert_eq; lia.
    + rewrite !list_lookup_insert_ne by congruence.
      destruct (Hinv p Hp) as [(r' & Hin & Hb & Hp' & Hc & Hf)|(Hnone & Hc & Hf)].
      * left. exists r'. split; [apply elem_of_app; left; exact Hin|]. tauto.
      * right. split; [|tauto]. intros r' Hin Hb.
        apply elem_of_app in Hin as [Hin|Hin%list_elem_of_singleton].
        -- apply Hnone; assumption.
        -- subst r'. rewrite Hpr. congruence.
  - rewrite (plan_step_out_of_band _ r Hband).
    eexists. split; [reflexivity|].
    unfold plan_invariant. fold N. fold rf0. simpl.
    split; [exact Hl1|]. split; [exact Hl2|].
    intros p Hp.
    destruct (Hinv p Hp) as [(r' & Hin & Hb & Hp' & Hc & Hf)|(Hnone & Hc & Hf)].
    + left. exists r'. split; [apply elem_of_app; left; exact Hin|]. tauto.
    + right. split; [|tauto]. intros r' Hin Hb.
      apply elem_of_app in Hin as [Hin|Hin%list_elem_of_singleton].
      * apply Hnone; assumption.
      * subst r'. congruence.
Qed.

End Loop.

Lemma inject_Z_nonzero (n : Z) : n <> 0 -> ~ (inject_Z n == 0)%Q.
Proof. unfold Qeq. simpl. lia. Qed.

Lemma plan_offsets (n r : Z) :
  r ∈ range (- ((n - 1) `div` 2)) ((n - 1) `div` 2 + 1)
  <-> - (n - 1) <= 2 * r <= n - 1.
Proof. rewrite elem_of_range. Z.div_mod_to_equations. lia. Qed.

(** The plan loop ends with the invariant over all the offsets. *)
Lemma plan_loop (self : Session) :
  let N := num_channels_of (fs self) in
  1 <= N ->
  (forall r, - (N - 1) <= 2 * r <= N - 1 ->
     is_Some (index_position N (chan_idx N r))) ->
  exists st,
    for_each (plan_step self N (chan_err_of (fs self)))
      (range (- ((N - 1) `div` 2)) ((N - 1) `div` 2 + 1))
      (replicate (Z.to_nat N) None, replicate (Z.to_nat N) 0%Q) = Ok st
    /\ plan_invariant self
         (range (- ((N - 1) `div` 2)) ((N - 1) `div` 2 + 1)) st.
Proof.
  intros N HN Hvalid.
  apply (for_each_invariant _ (plan_invariant self)).
  - apply plan_invariant_start. exact HN.
  - intros done a rest st Hl Hinv. apply plan_invariant_step; [|exact Hinv].
    apply Hvalid. apply plan_offsets. fold N. rewrite Hl.
    apply elem_of_app. right. constructor.
Qed.

(** C5: the wideband channel plan.  With [N = int(fs / 2 MHz + 0.5)]
    channels (the rounding of [fs / 2 MHz]) and [chan_err = fs / N - 2 MHz],
    and a channelizer that gives the offsets [r] with
    [-(N-1)/2 <= r <= (N-1)/2] distinct valid output indices: the entry at
    the output index of [r] is the BLE channel of the RF index
    [RF-index(chan) + r] with correction [-r * chan_err] when that RF index
    is in [0, 40), and is unused ([None], correction 0) otherwise; and, the
    RF-to-BLE table being one-to-one on [0, 40), no BLE channel is assigned
    to two output positions. *)
Theorem channel_plan_wideband (self : Session) :
  let N := num_channels_of (fs self) in
  let rf0 := ble_to_rf_chan (chan self) in
  let chan_err := (fs self / inject_Z N - 2e6)%Q in
  use_channelizer self = true ->
  1 <= N ->
  (forall r, - (N - 1) <= 2 * r <= N - 1 ->
     is_Some (index_position N (chan_idx N r))) ->
  (forall r r', - (N - 1) <= 2 * r <= N - 1 -> - (N - 1) <= 2 * r' <= N - 1 ->
     index_position N (chan_idx N r) = index_position N (chan_idx N r') ->
     r = r') ->
  (forall a b, 0 <= a < 40 -> 0 <= b < 40 ->
     rf_to_ble_chan a = rf_to_ble_chan b -> a = b) ->
  (inject_Z N <= fs self / 2e6 + 0.5)%Q
  /\ (fs self / 2e6 + 0.5 < inject_Z (N + 1))%Q
  /\ exists channels channels_cfo,
       channel_plan self
         = Ok ((fs self / inject_Z N)%Q, (channels, channels_cfo))
       /\ len channels = N /\ len channels_cfo = N
       /\ (forall r, - (N - 1) <= 2 * r <= N - 1 ->
             let rf_abs := rf0 + r in
             if (0 <=? rf_abs) && (rf_abs <? 40) then
               getitem channels (chan_idx N r) = Ok (Some (rf_to_ble_chan rf_abs))
               /\ getitem channels_cfo (chan_idx N r)
                  = Ok (inject_Z (- r) * chan_err)%Q
             else
               getitem channels (chan_idx N r) = Ok None
               /\ getitem channels_cfo (chan_idx N r) = Ok 0%Q)
       /\ (forall (p q : nat) (b : Z),
             channels !! p = Some (Some b) -> channels !! q = Some (Some b) ->
             p = q).
Proof.
  intros N rf0 chan_err Hwide HN Hvalid Hinj Hble.
  destruct (int_floor_bounds (fs self / 2e6 + 0.5)%Q HN) as [Hlo Hhi].
  split; [exact Hlo|]. split; [exact Hhi|].
  destruct (plan_loop self HN Hvalid) as ([channels cfos] & Hrun & Hinv).
  fold N in Hrun, Hinv.
  destruct Hinv as (Hl1 & Hl2 & Hinv). simpl in Hl1, Hl2, Hinv.
  fold N in Hl1, Hl2, Hinv. fold rf0 in Hinv.
  exists channels, cfos.
  split.
  { unfold channel_plan. rewrite Hwide. fold N.
    rewrite (div_ok _ _ (inject_Z_nonzero N ltac:(lia))). run_cmd.
    change (fs self / inject_Z N - 2e6)%Q with (chan_err_of (fs self)).
    rewrite Hrun. reflexivity. }
  split; [exact Hl1|]. split; [exact Hl2|]. split.
  - intros r Hr rf_abs.
    destruct (Hvalid r Hr) as [p Hp].
    pose proof (index_position_lt _ _ _ Hp) as Hlt.
    fold (in_band rf_abs).
    destruct (Hinv p Hlt) as [(r' & Hin & Hb & Hp' & Hc & Hf)|(Hnone & Hc & Hf)].
    + apply plan_offsets in Hin.
      assert (r' = r) by (apply Hinj; [assumption..|congruence]). subst r'.
      subst rf_abs. rewrite Hb.
      split; eapply getitem_position; try eassumption; congruence.
    + destruct (in_band rf_abs) eqn:Hband.
      * exfalso. apply (Hnone r); [apply plan_offsets; exact Hr|exact Hband|exact Hp].
      * split; eapply getitem_position; try eassumption; congruence.
  - intros p q b Hp Hq.
    pose proof (lookup_lt_Some _ _ _ Hp) as Hpl.
    pose proof (lookup_lt_Some _ _ _ Hq) as Hql.
    unfold len in Hl1.
    destruct (Hinv p ltac:(lia)) as [(r1 & Hin1 & Hb1 & Hp1 & Hc1 & _)|(_ & Hc1 & _)];
      [|congruence].
    destruct (Hinv q ltac:(lia)) as [(r2 & Hin2 & Hb2 & Hp2 & Hc2 & _)|(_ & Hc2 & _)];
      [|congruence].
    apply plan_offsets in Hin1, Hin2.
    unfold in_band in Hb1, Hb2.
    apply andb_prop in Hb1 as [?%Z.leb_le ?%Z.ltb_lt].
    apply andb_prop in Hb2 as [?%Z.leb_le ?%Z.ltb_lt].
    assert (Hrf : rf0 + r1 = rf0 + r2) by (apply Hble; [lia..|congruence]).
    assert (r1 = r2) by lia. subst r2. congruence.
Qed.

End Plan.

(** * Runs on the bench *)

Lemma mac_filtering_witness :
  deliver (Env := Bench.env)
    (Advert Bench.good_packet (Some [x01; x02; x03; x04; x05; x06]))
    Bench.filtering
  = (set_pktq [Advert Bench.good_packet (Some [x01; x02; x03; x04; x05; x06])]
       Bench.filtering, Ok tt)
  /\ deliver (Env := Bench.env)
       (Advert Bench.good_packet (Some [x01; x02; x03; x04; x05; x07]))
       Bench.filtering
     = (Bench.filtering, Ok tt).
Proof.
  destruct (mac_filtering (Env := Bench.env) Bench.filtering Bench.good_packet)
    as (Hfilter & _).
  destruct (Hfilter [x01; x02; x03; x04; x05; x06] eq_refl eq_refl)
    as [Hsame Hother].
  split.
  - exact Hsame.
  - apply Hother. discriminate.
Defined.

Lemma cancel_recv_idempotent_witness :
  cancel_recv (Env := Bench.env) Bench.single = (Bench.single, Ok tt)
  /\ pktq (fst (cancel_recv (Env := Bench.env) Bench.running))
     = [Advert Bench.good_packet (Some [x01; x02; x03; x04; x05; x06]); PyNone]
  /\ worker_running (fst (cancel_recv (Env := Bench.env) Bench.running)) = false.
Proof.
  destruct (cancel_recv_idempotent (Env := Bench.env) Bench.single)
    as (_ & Hidle & _).
  destruct (cancel_recv_idempotent (Env := Bench.env) Bench.running)
    as (_ & _ & Hrun & _).
  destruct (Hrun {| thread_pending := [Bench.job_of Bench.good_burst];
                    thread_eof := false |}
              eq_refl eq_refl) as (Hcancel & _).
  split; [exact (Hidle eq_refl)|].
  rewrite Hcancel. split; vm_compute; reflexivity.
Defined.

Lemma rssi_gate_witness :
  process_burst (Env := Bench.env) Bench.gated 37 0%Q Bench.weak_burst
    2e6%Q 0%Q PHY_1M = Ok None
  /\ exists pkt,
       process_burst (Env := Bench.env) Bench.gated 37 0%Q Bench.good_burst
         2e6%Q 0%Q PHY_1M = Ok (Some pkt)
       /\ pkt_rssi pkt = -60.
Proof.
  split.
  - destruct (rssi_gate (Env := Bench.env) Bench.gated 37 0%Q Bench.weak_burst
                2e6%Q 0%Q PHY_1M 8 eq_refl) as (_ & Hbelow & _).
    apply Hbelow. vm_compute. reflexivity.
  - destruct (rssi_gate (Env := Bench.env) Bench.gated 37 0%Q Bench.good_burst
                2e6%Q 0%Q PHY_1M 8 eq_refl) as (_ & _ & Hat & _).
    destruct (Hat eq_refl) as (_ & Hpkt).
    apply Hpkt.
    + intros [H|H]; vm_compute in H; discriminate H.
    + right. vm_compute. reflexivity.
Defined.

(** C3 as the specification words it fails on the bench: the faint burst
    has an RSSI of -60.7, strictly below the floor of -60, and is accepted,
    with the RSSI -60 in its packet. *)
Lemma rssi_gate_counterexample :
  (@calc_rssi Bench.env Bench.faint_burst
     - inject_Z (gain (Env := Bench.env) Bench.gated)
   < inject_Z (rssi_min (Env := Bench.env) Bench.gated))%Q
  /\ process_burst (Env := Bench.env) Bench.gated 37 0%Q Bench.faint_burst
       2e6%Q 0%Q PHY_1M
     = Ok (Some (from_fields 8 8 0 (-60) 37 0 Bench.adv_body 0x555570 false false)).
Proof.
  split.
  - vm_compute. reflexivity.
  - vm_compute. reflexivity.
Qed.


Lemma crc_gate_witness :
  process_burst (Env := Bench.env) Bench.single 37 0%Q Bench.corrupt_burst
    2e6%Q 0%Q PHY_1M = Ok None
  /\ (exists pkt,
        process_burst (Env := Bench.env) Bench.relaxed 37 0%Q Bench.corrupt_burst
          2e6%Q 0%Q PHY_1M = Ok (Some pkt)
        /\ pkt_crc_err pkt = true /\ pkt_crc_rev pkt = 0x555570)
  /\ (exists pkt,
        process_burst (Env := Bench.env) Bench.single 37 0%Q Bench.good_burst
          2e6%Q 0%Q PHY_1M = Ok (Some pkt)
        /\ pkt_crc_err pkt = false /\ pkt_crc_rev pkt = 0x555570).
Proof.
  split; [|split].
  - destruct (crc_gate (Env := Bench.env) Bench.single 37 0%Q Bench.corrupt_burst
                2e6%Q 0%Q PHY_1M 8 eq_refl) as (Hon & _).
    + vm_compute. discriminate.
    + intros [H|H]; vm_compute in H; discriminate H.
    + apply Hon; [vm_compute; discriminate|reflexivity].
  - destruct (crc_gate (Env := Bench.env) Bench.relaxed 37 0%Q Bench.corrupt_burst
                2e6%Q 0%Q PHY_1M 8 eq_refl) as (_ & Hoff & _).
    + vm_compute. discriminate.
    + intros [H|H]; vm_compute in H; discriminate H.
    + apply Hoff; [vm_compute; discriminate|reflexivity].
  - destruct (crc_gate (Env := Bench.env) Bench.single 37 0%Q Bench.good_burst
                2e6%Q 0%Q PHY_1M 8 eq_refl) as (_ & _ & Hagree).
    + vm_compute. discriminate.
    + intros [H|H]; vm_compute in H; discriminate H.
    + apply Hagree. vm_compute. reflexivity.
Defined.

Lemma rejected_burst_is_queued_witness :
  process_burst (Env := Bench.env) Bench.single 37
    (burst_time (Bench.job_of Bench.noise_burst)) Bench.noise_burst
    2e6%Q 0%Q PHY_1M = Ok None
  /\ handle_burst (Env := Bench.env) (Bench.job_of Bench.noise_burst) Bench.single
     = (set_pktq [PyNone] Bench.single, Ok tt).
Proof.
  apply (rejected_burst_is_queued (Env := Bench.env)
           (Bench.job_of Bench.noise_burst) Bench.single NoSync 0%nat
           (AttributeError "'NoneType' object has no attribute 'chan'")).
  - intros H. vm_compute in H. discriminate H.
  - vm_compute. reflexivity.
  - reflexivity.
Defined.

Lemma decode_failure_forwards_raw_witness :
  handle_burst (Env := Bench.env) (Bench.job_of Bench.runt_burst) Bench.single
  = (set_pktq
       [Raw (from_fields 72 4 0 (-60) 37 0 [x00; x02; x01; x02] 0x55555a
               false false)]
       (set_decoder_state (Env := Bench.env) 1%nat Bench.single), Ok tt)
  /\ pktq (fst (run_jobs (Env := Bench.env)
                  [Bench.job_of Bench.runt_burst; Bench.job_of Bench.good_burst]
                  Bench.single))
     = [Raw (from_fields 72 4 0 (-60) 37 0 [x00; x02; x01; x02] 0x55555a
               false false);
        Advert Bench.good_packet (Some [x01; x02; x03; x04; x05; x06])].
Proof.
  destruct (decode_failure_forwards_raw (Env := Bench.env)
              (Bench.job_of Bench.runt_burst) [Bench.job_of Bench.good_burst]
              Bench.single
              (from_fields 72 4 0 (-60) 37 0 [x00; x02; x01; x02] 0x55555a
                 false false)
              1%nat (Exception "short advertisement"))
    as (Hstep & Hloop & _).
  - vm_compute. reflexivity.
  - reflexivity.
  - split; [exact Hstep|]. rewrite Hloop. vm_compute. reflexivity.
Defined.

Lemma worker_demodulates_at_1M_witness :
  burst_packet (Env := Bench.env) (Bench.job_of Bench.good_burst) Bench.two_meg
  = Ok (Some (with_phy PHY_2M Bench.good_packet))
  /\ process_burst (Env := Bench.env) Bench.two_meg 37
       (burst_time (Bench.job_of Bench.good_burst)) Bench.good_burst
       2e6%Q 0%Q PHY_2M = Ok None.
Proof.
  destruct (worker_demodulates_at_1M (Env := Bench.env)
              (Bench.job_of Bench.good_burst) Bench.single) as (_ & Htag & _).
  split.
  - change Bench.two_meg with (set_phy PHY_2M Bench.single).
    rewrite (Htag PHY_2M). vm_compute. reflexivity.
  - vm_compute. reflexivity.
Defined.

Lemma bench_rf_to_ble_injective (a b : Z) :
  0 <= a < 40 -> 0 <= b < 40 -> Bench.rf_to_ble a = Bench.rf_to_ble b -> a = b.
Proof.
  unfold Bench.rf_to_ble. intros Ha Hb.
  destruct (Z.eqb_spec a 0), (Z.ltb_spec a 12), (Z.eqb_spec a 12),
    (Z.ltb_spec a 39), (Z.eqb_spec b 0), (Z.ltb_spec b 12),
    (Z.eqb_spec b 12), (Z.ltb_spec b 39); lia.
Defined.

Lemma bench_chan_idx_valid (r : Z) :
  - (61 - 1) <= 2 * r <= 61 - 1 -> is_Some (index_position 61 (r `mod` 61)).
Proof.
  intros Hr. unfold index_position.
  pose proof (Z.mod_pos_bound r 61 ltac:(lia)) as Hm.
  destruct (0 <=? r `mod` 61) eqn:E1; [|apply Z.leb_gt in E1; lia].
  destruct (r `mod` 61 <? 61) eqn:E2; [|apply Z.ltb_ge in E2; lia].
  simpl. eexists. reflexivity.
Defined.

Lemma bench_chan_idx_injective (r r' : Z) :
  - (61 - 1) <= 2 * r <= 61 - 1 -> - (61 - 1) <= 2 * r' <= 61 - 1 ->
  index_position 61 (r `mod` 61) = index_position 61 (r' `mod` 61) -> r = r'.
Proof.
  intros Hr Hr'. unfold index_position.
  pose proof (Z.mod_pos_bound r 61 ltac:(lia)) as Hm.
  pose proof (Z.mod_pos_bound r' 61 ltac:(lia)) as Hm'.
  destruct (0 <=? r `mod` 61) eqn:E1; [|apply Z.leb_gt in E1; lia].
  destruct (r `mod` 61 <? 61) eqn:E2; [|apply Z.ltb_ge in E2; lia].
  destruct (0 <=? r' `mod` 61) eqn:E3; [|apply Z.leb_gt in E3; lia].
  destruct (r' `mod` 61 <? 61) eqn:E4; [|apply Z.ltb_ge in E4; lia].
  simpl. intros [= H]. apply Z2Nat.inj in H; [|lia..].
  revert H. Z.div_mod_to_equations. lia.
Defined.

Lemma channel_plan_wideband_witness :
  exists channels channels_cfo,
    channel_plan (Env := Bench.env) init_file
    = Ok ((122.88e6 / inject_Z 61)%Q, (channels, channels_cfo))
    /\ len channels = 61
    /\ getitem channels 1 = Ok (Some 18)
    /\ getitem channels_cfo 1
       = Ok (inject_Z (- 1) * (122.88e6 / inject_Z 61 - 2e6))%Q
    /\ getitem channels 42 = Ok (Some 37)
    /\ getitem channels 21 = Ok None.
Proof.
  destruct (channel_plan_wideband (Env := Bench.env) init_file)
    as (_ & _ & channels & cfos & Hplan & Hlen & _ & Hmap & _).
  - reflexivity.
  - vm_compute. discriminate.
  - exact bench_chan_idx_valid.
  - exact bench_chan_idx_injective.
  - exact bench_rf_to_ble_injective.
  - exists channels, cfos.
    split; [exact Hplan|]. split; [exact Hlen|].
    pose proof (Hmap 1 ltac:(vm_compute; split; discriminate)) as H1.
    pose proof (Hmap (-19) ltac:(vm_compute; split; discriminate)) as H2.
    pose proof (Hmap 21 ltac:(vm_compute; split; discriminate)) as H3.
    destruct H1 as [H1 H1']. destruct H2 as [H2 _]. destruct H3 as [H3 _].
    repeat split; assumption.
Defined.

(** * More of the module *)

Section MoreConfiguration.

Context `{Env : Collaborators}.

Lemma setup_checks_cases (s : Session) (a : SetupArgs) :
  refused_by_setup s a \/ accepted_by_setup s a.
Proof.
  unfold refused_by_setup, accepted_by_setup.
  destruct (decide (arg_mode a ∈ SnifferMode)) as [Hm|Hm]; [|tauto].
  destruct (use_channelizer s) eqn:Hw.
  - destruct (truthy (arg_targ_mac a)), (truthy (arg_targ_irk a)),
      (arg_hop3 a), (arg_coded_phy a), (arg_ext_adv a); simpl; tauto.
  - destruct (decide (37 <= arg_chan a <= 39)) as [Hc|Hc]; [|tauto].
    destruct (truthy (arg_targ_mac a)), (truthy (arg_targ_irk a)),
      (arg_hop3 a), (arg_coded_phy a), (arg_ext_adv a); simpl; tauto.
Qed.

(** An accepted request runs the four setters in order. *)
Lemma setup_sniffer_run (s : Session) (a : SetupArgs) :
  accepted_by_setup s a ->
  setup_sniffer a s =
    (_ ← cmd_chan_aa_phy (setup_chan s a) BLE_ADV_AA (setup_phy a) BLE_ADV_CRCI;
     _ ← cmd_rssi (arg_rssi_min a);
     _ ← (if truthy (arg_targ_mac a) then cmd_mac (arg_targ_mac a)
          else if truthy (arg_targ_irk a) then pass
          else cmd_mac None);
     cmd_crc_valid (arg_validate_crc a)) s.
Proof.
  intros (Hm & Hc & Hb & Hh & Hp). unfold setup_sniffer.
  rewrite (bool_decide_eq_true_2 _ Hm). simpl.
  unfold mbind at 1, cmd_bind at 1, gets at 1.
  unfold mbind at 1, cmd_bind at 1, gets at 1.
  assert (Hgate : negb (use_channelizer s)
                  && negb ((37 <=? arg_chan a) && (arg_chan a <=? 39)) = false).
  { destruct Hc as [-> | [H1 H2]]; [reflexivity|].
    apply Z.leb_le in H1, H2. rewrite H1, H2. apply andb_false_r. }
  rewrite Hgate, Hb, Hh, Hp. reflexivity.
Qed.

Lemma setup_phy_valid (a : SetupArgs) : PHY_1M <= setup_phy a <= PHY_CODED_S2.
Proof.
  unfold setup_phy, PHY_1M, PHY_CODED, PHY_CODED_S2.
  destruct (arg_coded_phy a); lia.
Qed.

Lemma setup_chan_valid (s : Session) (a : SetupArgs) :
  0 <= chan s <= 39 -> accepted_by_setup s a -> 0 <= setup_chan s a <= 39.
Proof.
  intros Hs (_ & Hc & _). unfold setup_chan.
  destruct (use_channelizer s); [exact Hs|].
  destruct Hc as [Hc|Hc]; [discriminate Hc|lia].
Qed.

(** The state an accepted request reaches before the MAC filter is set. *)
Lemma setup_sniffer_mac_step (s : Session) (a : SetupArgs) :
  0 <= chan s <= 39 -> accepted_by_setup s a ->
  let s1 := set_rssi_min (arg_rssi_min a)
              (match sdr s with
               | Some _ => set_sdr (Some (freq_from_chan (setup_chan s a)))
               | None => fun s' => s'
               end (set_crci_rev (rbit24 BLE_ADV_CRCI)
                      (set_phy (setup_phy a)
                         (set_aa BLE_ADV_AA (set_chan (setup_chan s a) s))))) in
  setup_sniffer a s =
    (_ ← (if truthy (arg_targ_mac a) then cmd_mac (arg_targ_mac a)
          else if truthy (arg_targ_irk a) then pass
          else cmd_mac None);
     cmd_crc_valid (arg_validate_crc a)) s1.
Proof.
  intros Hs Hacc s1. rewrite (setup_sniffer_run s a Hacc).
  unfold mbind at 1, cmd_bind at 1.
  rewrite (cmd_chan_aa_phy_accepts s _ _ _ _ (setup_chan_valid s a Hs Hacc)
             (setup_phy_valid a)).
  reflexivity.
Qed.

Lemma truthy_Some (o : option (list byte)) :
  truthy o = true -> exists b, o = Some b /\ b <> [].
Proof.
  destruct o as [[|x b]|]; try discriminate. intros _. eexists. split;
    [reflexivity|discriminate].
Qed.

Lemma setup_sniffer_ok_accepted (s : Session) (a : SetupArgs) :
  0 <= chan s <= 39 ->
  snd (setup_sniffer a s) = Ok tt ->
  accepted_by_setup s a
  /\ (forall b, arg_targ_mac a = Some b -> b <> [] -> length b = 6%nat).
Proof.
  intros Hs Hok. destruct (setup_checks_cases s a) as [Href|Hacc].
  { destruct (setup_sniffer_rejects s a Href) as [e He].
    rewrite He in Hok. discriminate Hok. }
  split; [exact Hacc|]. intros b Hb Hne.
  rewrite (setup_sniffer_mac_step s a Hs Hacc) in Hok.
  assert (Ht : truthy (arg_targ_mac a) = true)
    by (rewrite Hb; destruct b; [contradiction|reflexivity]).
  rewrite Ht, Hb in Hok. unfold mbind, cmd_bind in Hok.
  destruct (decide (length b = 6%nat)) as [Hl|Hl]; [exact Hl|].
  rewrite cmd_mac_rejects in Hok by exact Hl. discriminate Hok.
Qed.

Lemma setup_sniffer_fields (s : Session) (a : SetupArgs) :
  0 <= chan s <= 39 ->
  accepted_by_setup s a ->
  (forall b, arg_targ_mac a = Some b -> b <> [] -> length b = 6%nat) ->
  exists s',
    setup_sniffer a s = (s', Ok tt)
    /\ chan s' = setup_chan s a
    /\ aa s' = BLE_ADV_AA
    /\ phy s' = setup_phy a
    /\ crci_rev s' = rbit24 BLE_ADV_CRCI
    /\ rssi_min s' = arg_rssi_min a
    /\ mac s' = setup_mac s a
    /\ validate_crc s' = arg_validate_crc a
    /\ sdr s' = match sdr s with
                | Some _ => Some (freq_from_chan (setup_chan s a))
                | None => None
                end
    /\ pktq s' = pktq s /\ worker s' = worker s
    /\ worker_running s' = worker_running s
    /\ decoder_state s' = decoder_state s
    /\ use_channelizer s' = use_channelizer s /\ fs s' = fs s
    /\ gain s' = gain s /\ file s' = file s.
Proof.
  intros Hs Hacc Hmac. rewrite (setup_sniffer_mac_step s a Hs Hacc).
  unfold mbind, cmd_bind, setup_mac.
  destruct (truthy (arg_targ_mac a)) eqn:Ht.
  - destruct (truthy_Some _ Ht) as (b & Hb & Hne). rewrite Hb.
    rewrite cmd_mac_accepts by (apply Hmac; assumption).
    eexists. split; [reflexivity|].
    destruct (sdr s) eqn:Hsdr; simpl; rewrite ?Hsdr; repeat split.
  - destruct (truthy (arg_targ_irk a)).
    + eexists. split; [reflexivity|].
      destruct (sdr s) eqn:Hsdr; simpl; rewrite ?Hsdr; repeat split.
    + eexists. split; [reflexivity|].
      destruct (sdr s) eqn:Hsdr; simpl; rewrite ?Hsdr; repeat split.
Qed.

Lemma session_ext (s t : Session) :
  sdr s = sdr t -> file s = file t -> pktq s = pktq t ->
  decoder_state s = decoder_state t -> worker s = worker t ->
  worker_running s = worker_running t ->
  use_channelizer s = use_channelizer t -> fs s = fs t -> gain s = gain t ->
  chan s = chan t -> aa s = aa t -> phy s = phy t ->
  crci_rev s = crci_rev t -> rssi_min s = rssi_min t -> mac s = mac t ->
  validate_crc s = validate_crc t -> s = t.
Proof.
  destruct s, t. cbn [sdr file pktq decoder_state worker worker_running
                      use_channelizer fs gain chan aa phy crci_rev rssi_min
                      mac validate_crc].
  intros. subst. reflexivity.
Qed.

(** X1: [setup_sniffer] returns normally exactly for the requests that pass
    its five tests and whose target MAC, when one is given (non-empty), is
    6 bytes long; an empty target MAC counts as none. *)
Theorem setup_sniffer_accepts_iff (s : Session) (a : SetupArgs) :
  0 <= chan s <= 39 ->
  snd (setup_sniffer a s) = Ok tt
  <-> accepted_by_setup s a
      /\ (forall b, arg_targ_mac a = Some b -> b <> [] -> length b = 6%nat).
Proof.
  intros Hs. split; [apply setup_sniffer_ok_accepted; exact Hs|].
  intros [Hacc Hmac].
  destruct (setup_sniffer_fields s a Hs Hacc Hmac) as (s' & -> & _).
  reflexivity.
Qed.

(** X2: an accepted request with a well-formed target commits every field:
    the channel requested (the session's own channel when the channelizer
    is in use), the advertising access address and CRC seed, 1M or coded
    PHY, the RSSI floor, the CRC toggle, and as MAC filter the target MAC,
    or the filter already set when only an IRK is given, or none; a device
    is retuned to the channel; the queue, the worker, the decoder state and
    the capture settings are left alone. *)
Theorem setup_sniffer_commits (s : Session) (a : SetupArgs) :
  0 <= chan s <= 39 ->
  accepted_by_setup s a ->
  (forall b, arg_targ_mac a = Some b -> b <> [] -> length b = 6%nat) ->
  exists s',
    setup_sniffer a s = (s', Ok tt)
    /\ chan s' = setup_chan s a
    /\ aa s' = BLE_ADV_AA
    /\ phy s' = setup_phy a
    /\ crci_rev s' = rbit24 BLE_ADV_CRCI
    /\ rssi_min s' = arg_rssi_min a
    /\ mac s' = setup_mac s a
    /\ validate_crc s' = arg_validate_crc a
    /\ sdr s' = match sdr s with
                | Some _ => Some (freq_from_chan (setup_chan s a))
                | None => None
                end
    /\ pktq s' = pktq s /\ worker s' = worker s
    /\ worker_running s' = worker_running s
    /\ decoder_state s' = decoder_state s
    /\ use_channelizer s' = use_channelizer s /\ fs s' = fs s
    /\ gain s' = gain s /\ file s' = file s.
Proof.
  intros Hs Hacc Hmac. rewrite (setup_sniffer_mac_step s a Hs Hacc).
  unfold mbind, cmd_bind, setup_mac.
  destruct (truthy (arg_targ_mac a)) eqn:Ht.
  - destruct (truthy_Some _ Ht) as (b & Hb & Hne). rewrite Hb.
    rewrite cmd_mac_accepts by (apply Hmac; assumption).
    eexists. split; [reflexivity|].
    destruct (sdr s) eqn:Hsdr; simpl; rewrite ?Hsdr; repeat split.
  - destruct (truthy (arg_targ_irk a)).
    + eexists. split; [reflexivity|].
      destruct (sdr s) eqn:Hsdr; simpl; rewrite ?Hsdr; repeat split.
    + eexists. split; [reflexivity|].
      destruct (sdr s) eqn:Hsdr; simpl; rewrite ?Hsdr; repeat split.
Qed.

(** X3: applying the same accepted request twice leaves the session as one
    application does. *)
Theorem setup_sniffer_twice (s s' : Session) (a : SetupArgs) :
  0 <= chan s <= 39 ->
  setup_sniffer a s = (s', Ok tt) ->
  setup_sniffer a s' = (s', Ok tt).
Proof.
  intros Hs Hrun.
  assert (Hok : snd (setup_sniffer a s) = Ok tt) by (rewrite Hrun; reflexivity).
  apply (setup_sniffer_ok_accepted s a Hs) in Hok as [Hacc Hmac].
  destruct (setup_sniffer_fields s a Hs Hacc Hmac)
    as (s1 & Hrun1 & Hchan & Haa & Hphy & Hcrci & Hrssi & Hm & Hv & Hsdr & Hq
        & Hwk & Hwr & Hds & Hw & Hfs & Hg & Hf).
  rewrite Hrun in Hrun1. injection Hrun1 as <-.
  pose proof (setup_chan_valid s a Hs Hacc) as Hvalid.
  assert (Hsc : setup_chan s' a = setup_chan s a).
  { unfold setup_chan in *. rewrite Hw, Hchan.
    destruct (use_channelizer s); reflexivity. }
  assert (Hs' : 0 <= chan s' <= 39) by (rewrite Hchan; exact Hvalid).
  assert (Hacc' : accepted_by_setup s' a).
  { unfold accepted_by_setup in *. rewrite Hw. exact Hacc. }
  destruct (setup_sniffer_fields s' a Hs' Hacc' Hmac)
    as (s2 & Hrun2 & Hchan2 & Haa2 & Hphy2 & Hcrci2 & Hrssi2 & Hm2 & Hv2 & Hsdr2
        & Hq2 & Hwk2 & Hwr2 & Hds2 & Hw2 & Hfs2 & Hg2 & Hf2).
  rewrite Hrun2. f_equal. apply session_ext; try congruence.
  - rewrite Hsdr2, Hsdr, Hsc. destruct (sdr s); reflexivity.
  - rewrite Hm2, Hm. unfold setup_mac. rewrite Hm. unfold setup_mac.
    destruct (truthy (arg_targ_mac a)); [reflexivity|].
    destruct (truthy (arg_targ_irk a)); reflexivity.
Qed.

(** X4: with the channelizer in use the requested channel plays no part:
    [setup_sniffer] does the same for every value of it, and never changes
    the channel of the session. *)
Theorem setup_sniffer_wideband_ignores_chan (s : Session) (a : SetupArgs) (c : Z) :
  use_channelizer s = true ->
  setup_sniffer (with_arg_chan c a) s = setup_sniffer a s
  /\ (0 <= chan s <= 39 -> chan (fst (setup_sniffer a s)) = chan s).
Proof.
  intros Hw. split.
  - unfold setup_sniffer. simpl.
    destruct (bool_decide (arg_mode a ∈ SnifferMode)); simpl; [|reflexivity].
    unfold mbind, cmd_bind, gets. cbv beta iota. rewrite Hw. reflexivity.
  - intros Hs. destruct (setup_checks_cases s a) as [Href|Hacc].
    + destruct (setup_sniffer_rejects s a Href) as [e ->]. reflexivity.
    + rewrite (setup_sniffer_mac_step s a Hs Hacc).
      unfold mbind, cmd_bind, setup_chan. rewrite Hw.
      destruct (truthy (arg_targ_mac a)) eqn:Ht.
      * destruct (truthy_Some _ Ht) as (b & Hb & Hne). rewrite Hb.
        destruct (decide (length b = 6%nat)) as [Hl|Hl].
        -- rewrite cmd_mac_accepts by exact Hl. destruct (sdr s); reflexivity.
        -- rewrite cmd_mac_rejects by exact Hl. destruct (sdr s); reflexivity.
      * destruct (truthy (arg_targ_irk a)); destruct (sdr s); reflexivity.
Qed.

(** ** Invariants of the configuration *)

Lemma cmd_chan_aa_phy_cases (s : Session) (c a p crci : Z) :
  (exists e, cmd_chan_aa_phy c a p crci s = (s, Raised e))
  \/ (0 <= c <= 39 /\ PHY_1M <= p <= PHY_CODED_S2
      /\ cmd_chan_aa_phy c a p crci s =
           (match sdr s with
            | Some _ => set_sdr (Some (freq_from_chan c))
            | None => fun s' => s'
            end (set_crci_rev (rbit24 crci) (set_phy p (set_aa a (set_chan c s)))),
            Ok tt)).
Proof.
  destruct (decide (0 <= c <= 39)) as [Hc|Hc].
  - destruct (decide (PHY_1M <= p <= PHY_CODED_S2)) as [Hp|Hp].
    + right. split; [exact Hc|]. split; [exact Hp|].
      apply cmd_chan_aa_phy_accepts; assumption.
    + left. destruct (cmd_chan_aa_phy_rejects s c a p crci (or_intror Hp))
        as [msg H]. eauto.
  - left. destruct (cmd_chan_aa_phy_rejects s c a p crci (or_introl Hc))
      as [msg H]. eauto.
Qed.

Lemma cmd_mac_cases (s : Session) (m : option (list byte)) :
  (exists e, cmd_mac m s = (s, Raised e))
  \/ ((m = None \/ exists b, m = Some b /\ length b = 6%nat)
      /\ cmd_mac m s = (set_mac m s, Ok tt)).
Proof.
  destruct m as [b|].
  - destruct (decide (length b = 6%nat)) as [Hl|Hl].
    + right. split; [right; eauto|]. apply cmd_mac_accepts. exact Hl.
    + left. eexists. apply cmd_mac_rejects. exact Hl.
  - right. split; [left; reflexivity|reflexivity].
Qed.

(** The state in which [setup_sniffer] ends, whatever its outcome. *)
Lemma setup_sniffer_end_state (s : Session) (a : SetupArgs) :
  0 <= chan s <= 39 ->
  fst (setup_sniffer a s) = s
  \/ exists chan' m v,
       0 <= chan' <= 39
       /\ (m = mac s \/ m = None \/ exists b, m = Some b /\ length b = 6%nat)
       /\ fst (setup_sniffer a s) =
            set_validate_crc v
              (set_mac m
                 (set_rssi_min (arg_rssi_min a)
                    (match sdr s with
                     | Some _ => set_sdr (Some (freq_from_chan chan'))
                     | None => fun s' => s'
                     end (set_crci_rev (rbit24 BLE_ADV_CRCI)
                            (set_phy (setup_phy a)
                               (set_aa BLE_ADV_AA (set_chan chan' s))))))).
Proof.
  intros Hs. destruct (setup_checks_cases s a) as [Href|Hacc].
  { left. destruct (setup_sniffer_rejects s a Href) as [e ->]. reflexivity. }
  right. exists (setup_chan s a).
  pose proof (setup_chan_valid s a Hs Hacc) as Hv.
  rewrite (setup_sniffer_mac_step s a Hs Hacc). unfold mbind, cmd_bind.
  destruct (truthy (arg_targ_mac a)) eqn:Ht.
  - destruct (truthy_Some _ Ht) as (b & Hb & Hne). rewrite Hb.
    destruct (decide (length b = 6%nat)) as [Hl|Hl].
    + rewrite cmd_mac_accepts by exact Hl.
      exists (Some b), (arg_validate_crc a).
      split; [exact Hv|]. split; [right; right; eauto|].
      destruct (sdr s); reflexivity.
    + rewrite cmd_mac_rejects by exact Hl.
      exists (mac s), (validate_crc s).
      split; [exact Hv|]. split; [left; reflexivity|].
      destruct s; destruct sdr0; reflexivity.
  - destruct (truthy (arg_targ_irk a)).
    + exists (mac s), (arg_validate_crc a).
      split; [exact Hv|]. split; [left; reflexivity|].
      destruct s; destruct sdr0; reflexivity.
    + exists None, (arg_validate_crc a).
      split; [exact Hv|]. split; [right; left; reflexivity|].
      destruct (sdr s); reflexivity.
Qed.

(** X5: the four setters and [setup_sniffer] keep the invariants of the
    configuration (channel in 0..39, a defined PHY, a MAC filter absent or
    6 bytes long), also in the state they leave behind when they raise. *)
Theorem config_ok_preserved (s : Session) :
  config_ok s ->
  (forall c a p crci, config_ok (fst (cmd_chan_aa_phy c a p crci s)))
  /\ (forall r, config_ok (fst (cmd_rssi r s)))
  /\ (forall m, config_ok (fst (cmd_mac m s)))
  /\ (forall v, config_ok (fst (cmd_crc_valid v s)))
  /\ (forall a, config_ok (fst (setup_sniffer a s))).
Proof.
  intros (Hc & Hp & Hm). split; [|split; [|split; [|split]]].
  - intros c a p crci.
    destruct (cmd_chan_aa_phy_cases s c a p crci) as [[e ->]|(Hc' & Hp' & ->)].
    + split; [exact Hc|]. split; [exact Hp|exact Hm].
    + unfold config_ok. destruct (sdr s); simpl; tauto.
  - intros r. unfold config_ok. simpl. tauto.
  - intros m. destruct (cmd_mac_cases s m) as [[e ->]|[Hm' ->]].
    + split; [exact Hc|]. split; [exact Hp|exact Hm].
    + unfold config_ok. simpl. tauto.
  - intros v. unfold config_ok. simpl. tauto.
  - intros a. destruct (setup_sniffer_end_state s a Hc)
      as [->|(chan' & m & v & Hv & Hm' & ->)].
    + split; [exact Hc|]. split; [exact Hp|exact Hm].
    + pose proof (setup_phy_valid a) as Hphy.
      assert (Hm2 : m = None \/ exists b, m = Some b /\ length b = 6%nat).
      { destruct Hm' as [-> | Hm']; [exact Hm|exact Hm']. }
      unfold config_ok. destruct (sdr s); simpl; tauto.
Qed.

(** X6: a device stays tuned to the frequency of the session channel under
    the four setters and [setup_sniffer], also when they raise. *)
Theorem tuned_preserved (s : Session) :
  0 <= chan s <= 39 -> tuned s ->
  (forall c a p crci, tuned (fst (cmd_chan_aa_phy c a p crci s)))
  /\ (forall r, tuned (fst (cmd_rssi r s)))
  /\ (forall m, tuned (fst (cmd_mac m s)))
  /\ (forall v, tuned (fst (cmd_crc_valid v s)))
  /\ (forall a, tuned (fst (setup_sniffer a s))).
Proof.
  intros Hc Ht. split; [|split; [|split; [|split]]].
  - intros c a p crci.
    destruct (cmd_chan_aa_phy_cases s c a p crci) as [[e ->]|(_ & _ & ->)];
      [exact Ht|].
    unfold tuned. destruct (sdr s) eqn:Hsdr; simpl; [|rewrite Hsdr];
      congruence.
  - intros r. exact Ht.
  - intros m. destruct (cmd_mac_cases s m) as [[e ->]|[_ ->]]; exact Ht.
  - intros v. exact Ht.
  - intros a. destruct (setup_sniffer_end_state s a Hc)
      as [->|(chan' & m & v & _ & _ & ->)]; [exact Ht|].
    unfold tuned. destruct (sdr s) eqn:Hsdr; simpl; [|rewrite Hsdr];
      congruence.
Qed.

(** X7: converting a channel to its centre frequency and back gives the
    channel again, for every channel on which the two channel tables are
    inverse. *)
Theorem chan_from_freq_from_chan (c : Z) :
  rf_to_ble_chan (ble_to_rf_chan c) = c ->
  chan_from_freq (freq_from_chan c) = c.
Proof.
  intros Htab. unfold chan_from_freq, freq_from_chan.
  rewrite (int_inject_Z _ (ble_to_rf_chan c)); [exact Htab|].
  field. intros H. vm_compute in H. discriminate H.
Qed.

(** X8: every object the constructor returns is idle (no worker, flag
    clear, empty queue), satisfies the configuration invariants, listens
    for the advertising access address with CRC validation on, no MAC
    filter and the lowest RSSI floor, has a capture source (a device or an
    open file, not both), and has its device tuned to its channel; and it
    returns only for [rfnm] and [file:] drivers. *)
Theorem init_establishes (host : Host) (driver : string) (s : Session) :
  __init__ host driver = Ok s ->
  idle s /\ config_ok s /\ tuned s
  /\ aa s = BLE_ADV_AA /\ crci_rev s = rbit24 BLE_ADV_CRCI
  /\ validate_crc s = true /\ mac s = None /\ rssi_min s = -128
  /\ gain s = 10
  /\ ((is_Some (sdr s) /\ file s = false) \/ (sdr s = None /\ file s = true))
  /\ (String.prefix "rfnm" driver = true \/ String.prefix "file:" driver = true).
Proof.
  unfold __init__.
  destruct (String.prefix "rfnm" driver) eqn:Hr.
  - destruct (getitem (host_antennas host) 1) as [ant|e]; [|discriminate].
    simpl.
    destruct (String.eqb driver "rfnm:full");
      [|destruct (String.eqb driver "rfnm:partial")];
      (destruct (getitem (host_rates host) _) as [rate|e]; [|discriminate]);
      intros [= <-]; unfold idle, config_ok, tuned, PHY_1M, PHY_CODED_S2; simpl;
      repeat split; try lia; try (left; reflexivity); try congruence;
      left; split; eauto.
  - destruct (String.prefix "file:" driver) eqn:Hf; [|discriminate].
    destruct (existsb _ _); [|discriminate].
    intros [= <-]. unfold idle, config_ok, tuned, PHY_1M, PHY_CODED_S2; simpl.
    repeat split; try lia; try (left; reflexivity); try congruence.
    right. split; reflexivity.
Qed.

End MoreConfiguration.

Section MorePipeline.

Context `{Env : Collaborators}.

Lemma lor_shiftl_add (a b n : Z) :
  0 <= n -> 0 <= a < 2 ^ n -> Z.lor a (Z.shiftl b n) = a + b * 2 ^ n.
Proof.
  intros Hn Ha.
  assert (Hland : Z.land a (Z.shiftl b n) = 0).
  { apply Z.bits_inj'. intros m Hm. rewrite Z.land_spec, Z.bits_0.
    destruct (Z.lt_ge_cases m n) as [Hlt|Hge].
    - rewrite Z.shiftl_spec_low by exact Hlt. apply andb_false_r.
    - rewrite <- (Z.mod_small a (2 ^ n)) by exact Ha.
      rewrite Z.mod_pow2_bits_high by lia. reflexivity. }
  rewrite <- Z.lxor_lor by exact Hland.
  rewrite <- Z.add_nocarry_lxor by exact Hland.
  rewrite Z.shiftl_mul_pow2 by exact Hn. reflexivity.
Qed.

Lemma le24_value (c0 c1 c2 : byte) (rest : list byte) :
  le24 (c0 :: c1 :: c2 :: rest)
  = byte_val c0 + 256 * byte_val c1 + 65536 * byte_val c2.
Proof.
  pose proof (byte_val_range c0). pose proof (byte_val_range c1).
  pose proof (byte_val_range c2). unfold le24.
  rewrite (lor_shiftl_add (byte_val c0) (byte_val c1) 8) by lia.
  rewrite lor_shiftl_add by lia. lia.
Qed.

Lemma le24_range (bs : list byte) : 0 <= le24 bs < 2 ^ 24.
Proof.
  destruct bs as [|c0 [|c1 [|c2 rest]]]; try (simpl; lia).
  rewrite le24_value.
  pose proof (byte_val_range c0). pose proof (byte_val_range c1).
  pose proof (byte_val_range c2). lia.
Qed.

(** What a returned packet says about the call that built it. *)
Lemma process_burst_produced (self : Session) (chan' : Z) (t_burst : Q)
    (burst : Burst) (fs' cfo : Q) (phy' : Z) (pkt : PacketMessage) :
  process_burst self chan' t_burst burst fs' cfo phy' = Ok (Some pkt) ->
  exists sym_offset,
    let data_dw := dewhitened (syms_of burst fs' cfo phy') sym_offset chan' in
    find_sync32 (syms_of burst fs' cfo phy') (aa self) = Some sym_offset
    /\ rssi_min self <= burst_rssi self burst
    /\ ~ malformed data_dw
    /\ validate_crc self
       && negb (crc_calc_of self data_dw =? crc_rev_of data_dw) = false
    /\ pkt = packet_of self chan'
               (sync_time t_burst burst fs' cfo phy' sym_offset)
               (burst_rssi self burst) data_dw.
Proof.
  rewrite process_burst_gates. unfold gates.
  destruct (find_sync32 _ (aa self)) as [off|]; [|discriminate].
  destruct (burst_rssi self burst <? rssi_min self) eqn:Er; [discriminate|].
  destruct (malformedb _) eqn:Em; [discriminate|].
  destruct (validate_crc self && _) eqn:Ec; [discriminate|].
  intros [= <-]. exists off. apply Z.ltb_ge in Er. apply malformedb_false in Em.
  repeat split; assumption.
Qed.

(** X9: every packet [process_burst] returns has an RSSI at or above the
    floor, the channel of the call, the PHY of the session, event 0 and the
    transmit flag clear; its CRC-mismatch flag says whether the CRC of its
    body differs from the CRC it carries, and is clear whenever CRC
    validation is on. *)
Theorem produced_packet_consistent (self : Session) (chan' : Z) (t_burst : Q)
    (burst : Burst) (fs' cfo : Q) (phy' : Z) (pkt : PacketMessage) :
  process_burst self chan' t_burst burst fs' cfo phy' = Ok (Some pkt) ->
  rssi_min self <= pkt_rssi pkt
  /\ pkt_rssi pkt = int (calc_rssi burst - inject_Z (gain self))%Q
  /\ pkt_chan pkt = chan'
  /\ pkt_phy pkt = phy self
  /\ pkt_event pkt = 0 /\ pkt_is_tx pkt = false
  /\ pkt_crc_err pkt
     = negb (crc_ble_reverse (crci_rev self) (pkt_body pkt) =? pkt_crc_rev pkt)
  /\ (validate_crc self = true -> pkt_crc_err pkt = false).
Proof.
  intros H. destruct (process_burst_produced _ _ _ _ _ _ _ _ H)
    as (off & Hsync & Hrssi & Hwf & Hcrc & ->).
  simpl. repeat split; try assumption; try reflexivity.
  intros Hv. rewrite Hv in Hcrc. exact Hcrc.
Qed.

(** X10: every packet [process_burst] returns has a timestamp of 30 bits;
    a body of 2 to 257 bytes whose second byte is its length less 2, the
    length field being the length of the body; and a received CRC of 24
    bits. *)
Theorem produced_packet_ranges (self : Session) (chan' : Z) (t_burst : Q)
    (burst : Burst) (fs' cfo : Q) (phy' : Z) (pkt : PacketMessage) :
  process_burst self chan' t_burst burst fs' cfo phy' = Ok (Some pkt) ->
  0 <= pkt_ts pkt < 2 ^ 30
  /\ pkt_len pkt = len (pkt_body pkt)
  /\ 2 <= pkt_len pkt <= 257
  /\ (exists b, pkt_body pkt !! 1%nat = Some b
                /\ byte_val b = pkt_len pkt - 2)
  /\ 0 <= pkt_crc_rev pkt < 2 ^ 24.
Proof.
  intros H. destruct (process_burst_produced _ _ _ _ _ _ _ _ H)
    as (off & Hsync & Hrssi & Hwf & Hcrc & ->).
  set (data_dw := dewhitened (syms_of burst fs' cfo phy') off chan') in *.
  destruct (well_formed_lengths data_dw Hwf) as ((b & Hb & Hn) & Hbody & _).
  pose proof (byte_val_range b) as Hr.
  unfold packet_of. cbn [pkt_ts pkt_len pkt_body pkt_crc_rev].
  change 0x3FFFFFFF with (Z.ones 30). rewrite Z.land_ones by lia.
  split; [apply Z.mod_pos_bound; lia|].
  split; [reflexivity|]. split; [lia|].
  split; [|apply le24_range].
  exists b. split; [|lia].
  unfold body_of. rewrite lookup_take_lt by lia. exact Hb.
Qed.

(** X11: the three CRC bytes are read least significant first: they give
    [c0 + 256 c1 + 65536 c2], bytes beyond the third are not looked at, and
    fewer than three bytes raise [IndexError]. *)
Theorem crc_of_bytes_little_endian (bs : list byte) :
  match bs with
  | c0 :: c1 :: c2 :: _ =>
      crc_of_bytes bs
      = Ok (byte_val c0 + 256 * byte_val c1 + 65536 * byte_val c2)
  | _ => crc_of_bytes bs = Raised IndexError
  end.
Proof.
  destruct bs as [|c0 [|c1 [|c2 rest]]]; try reflexivity.
  rewrite <- (le24_value c0 c1 c2 rest).
  pose proof (getitem_lookup (c0 :: c1 :: c2 :: rest) 0 c0 eq_refl) as H0.
  pose proof (getitem_lookup (c0 :: c1 :: c2 :: rest) 1 c1 eq_refl) as H1.
  pose proof (getitem_lookup (c0 :: c1 :: c2 :: rest) 2 c2 eq_refl) as H2.
  change (Z.of_nat 0) with 0 in H0. change (Z.of_nat 1) with 1 in H1.
  change (Z.of_nat 2) with 2 in H2.
  unfold crc_of_bytes. rewrite H0, H1, H2. reflexivity.
Qed.

(** X12: CRC validation only filters: the packets returned with validation
    on are the packets returned with validation off whose CRC-mismatch flag
    is clear. *)
Theorem validation_only_filters (self : Session) (chan' : Z) (t_burst : Q)
    (burst : Burst) (fs' cfo : Q) (phy' : Z) (pkt : PacketMessage) :
  process_burst (set_validate_crc true self) chan' t_burst burst fs' cfo phy'
    = Ok (Some pkt)
  <-> process_burst (set_validate_crc false self) chan' t_burst burst fs' cfo phy'
        = Ok (Some pkt)
      /\ pkt_crc_err pkt = false.
Proof.
  rewrite !process_burst_gates. unfold gates. simpl.
  destruct (find_sync32 _ (aa self)) as [off|]; [|split; [discriminate|intros [H _]; discriminate H]].
  change (burst_rssi (set_validate_crc true self) burst) with (burst_rssi self burst).
  change (burst_rssi (set_validate_crc false self) burst) with (burst_rssi self burst).
  destruct (burst_rssi self burst <? rssi_min self);
    [split; [discriminate|intros [H _]; discriminate H]|].
  destruct (malformedb _); [split; [discriminate|intros [H _]; discriminate H]|].
  set (data_dw := dewhitened (syms_of burst fs' cfo phy') off chan').
  change (crc_calc_of (set_validate_crc true self) data_dw)
    with (crc_calc_of self data_dw).
  change (crc_calc_of (set_validate_crc false self) data_dw)
    with (crc_calc_of self data_dw).
  unfold packet_of.
  change (crc_calc_of (set_validate_crc true self) data_dw)
    with (crc_calc_of self data_dw).
  change (crc_calc_of (set_validate_crc false self) data_dw)
    with (crc_calc_of self data_dw).
  cbn [phy set_validate_crc].
  destruct (crc_calc_of self data_dw =? crc_rev_of data_dw); simpl.
  - split; [intros [= <-]; split; reflexivity|intros [H _]; exact H].
  - split; [discriminate|]. intros [[= <-] Hf]. discriminate Hf.
Qed.

(** X13: lowering the RSSI floor never loses a packet: a packet returned
    under a floor is returned, the same, under every lower floor. *)
Theorem lower_floor_keeps_packets (self : Session) (chan' : Z) (t_burst : Q)
    (burst : Burst) (fs' cfo : Q) (phy' : Z) (pkt : PacketMessage)
    (floor floor' : Z) :
  floor' <= floor ->
  process_burst (set_rssi_min floor self) chan' t_burst burst fs' cfo phy'
    = Ok (Some pkt) ->
  process_burst (set_rssi_min floor' self) chan' t_burst burst fs' cfo phy'
    = Ok (Some pkt).
Proof.
  intros Hle. rewrite !process_burst_gates. unfold gates. simpl.
  destruct (find_sync32 _ (aa self)) as [off|]; [|discriminate].
  change (burst_rssi (set_rssi_min floor self) burst) with (burst_rssi self burst).
  change (burst_rssi (set_rssi_min floor' self) burst) with (burst_rssi self burst).
  destruct (burst_rssi self burst <? floor) eqn:E; [discriminate|].
  apply Z.ltb_ge in E.
  assert (E' : (burst_rssi self burst <? floor') = false) by (apply Z.ltb_ge; lia).
  rewrite E'. intros H. exact H.
Qed.

End MorePipeline.

Section MoreStreaming.

Context `{Env : Collaborators}.

Lemma worker_frame_refl (s : Session) : worker_frame s s.
Proof.
  unfold worker_frame. repeat split. exists []. rewrite app_nil_r. reflexivity.
Qed.

Lemma worker_frame_trans (s1 s2 s3 : Session) :
  worker_frame s1 s2 -> worker_frame s2 s3 -> worker_frame s1 s3.
Proof.
  unfold worker_frame.
  intros (A1 & A2 & A3 & A4 & A5 & A6 & A7 & A8 & A9 & A10 & A11 & A12 & q1 & Hq1)
         (B1 & B2 & B3 & B4 & B5 & B6 & B7 & B8 & B9 & B10 & B11 & B12 & q2 & Hq2).
  repeat split; try congruence.
  exists (q1 ++ q2). rewrite Hq2, Hq1, app_assoc. reflexivity.
Qed.

Lemma run_jobs_worker_frame (jobs : list BurstJob) (s : Session) :
  worker_frame s (fst (run_jobs jobs s))
  /\ worker_running (fst (run_jobs jobs s)) = worker_running s
  /\ file (fst (run_jobs jobs s)) = file s.
Proof.
  destruct (run_jobs_frame jobs s) as (ds & q & ->).
  unfold worker_frame. simpl. repeat split. exists q. reflexivity.
Qed.

Lemma capture_loop_worker_frame (t_start fs_decim : Q)
    (channels : list (option Z)) (channels_cfo : list Q) (reads : list Read) :
  forall s,
    worker_frame s (fst (capture_loop t_start fs_decim channels channels_cfo reads s))
    /\ worker_running (fst (capture_loop t_start fs_decim channels channels_cfo reads s))
       = worker_running s.
Proof.
  induction reads as [|rd rest IH]; intros s;
    [|destruct rd as [| | |detected]; [| | |rewrite capture_loop_chunk]];
    simpl; unfold mbind, cmd_bind, gets, raise;
    destruct (worker_running s) eqn:Hrun; simpl;
    try (split; [apply worker_frame_refl|exact Hrun]).
  - split; [|exact Hrun]. unfold worker_frame. simpl. repeat split.
    exists []. rewrite app_nil_r. reflexivity.
  - destruct (snd (channelize s)) as [[]|e];
      [|split; [apply worker_frame_refl|exact Hrun]].
    destruct (buffer_jobs t_start fs_decim channels_cfo detected 0 channels)
      as [jobs|e]; [|split; [apply worker_frame_refl|exact Hrun]].
    destruct (run_jobs_worker_frame jobs s) as (Hf & Hr & _).
    destruct (run_jobs jobs s) as [s1 [[]|e]]; simpl in *.
    + destruct (IH s1) as [Hf2 Hr2]. split.
      * eapply worker_frame_trans; eassumption.
      * congruence.
    + split; [exact Hf|congruence].
Qed.

(** X14: the worker never changes the configuration, the device or its own
    thread handle, and never removes or reorders what is queued: from its
    first line to its last, also when it dies on an exception, it only adds
    at the tail of the queue. *)
Theorem recv_worker_frame (t_start : Q) (reads : list Read) (s : Session) :
  worker_frame s (fst (_recv_worker t_start reads s)).
Proof.
  unfold _recv_worker, mbind, cmd_bind, modify, gets, lift, id. cbv beta iota.
  assert (H0 : worker_frame s (set_worker_running true s)).
  { unfold worker_frame. simpl. repeat split. exists [].
    rewrite app_nil_r. reflexivity. }
  destruct (channel_plan (set_worker_running true s)) as [plan|e];
    [|exact H0].
  destruct (capture_loop_worker_frame t_start (fst plan) (fst (snd plan))
              (snd (snd plan)) reads (set_worker_running true s)) as [Hf _].
  destruct (capture_loop _ _ _ _ _ _) as [s1 [[]|e]]; simpl in *.
  - eapply worker_frame_trans; [exact H0|].
    eapply worker_frame_trans; [exact Hf|].
    unfold worker_frame. simpl. repeat split. exists [].
    rewrite app_nil_r. reflexivity.
  - exact (worker_frame_trans _ _ _ H0 Hf).
Qed.

Lemma mac_filtered_no_filter (m : Message) : mac_filtered None m = false.
Proof. destruct m as [|p|p [a|]|p]; reflexivity. Qed.

Lemma handle_burst_step (j : BurstJob) (s : Session) (pkt : option PacketMessage) :
  burst_packet j s = Ok pkt ->
  exists q,
    handle_burst j s
    = (set_pktq (pktq s ++ q)
         (set_decoder_state (fst (decode pkt (decoder_state s))) s), Ok tt)
    /\ (length q <= 1)%nat
    /\ (mac s = None -> length q = 1%nat).
Proof.
  intros Hpkt. rewrite (handle_burst_unfold j s pkt Hpkt).
  destruct (decode pkt (decoder_state s)) as [ds' r]. simpl.
  rewrite deliver_unfold. simpl.
  destruct (mac_filtered (mac s) _) eqn:Hf.
  - exists []. split; [|split; [simpl; lia|]].
    + destruct s; simpl. rewrite app_nil_r. reflexivity.
    + intros Hm. rewrite Hm, mac_filtered_no_filter in Hf. discriminate Hf.
  - eexists [_]. split; [reflexivity|]. split; [simpl; lia|reflexivity].
Qed.

(** X15: every burst is shown to the decoder, a rejected one as [None], and
    the decoder state the decoder leaves is kept whether the message is
    queued, dropped by the MAC filter, or could not be decoded. *)
Theorem decoder_sees_every_burst (j : BurstJob) (s : Session)
    (pkt : option PacketMessage) :
  burst_packet j s = Ok pkt ->
  decoder_state (fst (handle_burst j s)) = fst (decode pkt (decoder_state s))
  /\ snd (handle_burst j s) = Ok tt.
Proof.
  intros Hpkt. destruct (handle_burst_step j s pkt Hpkt) as (q & -> & _).
  split; reflexivity.
Qed.

(** X16: the loop over the bursts of a buffer queues at most one item per
    burst, behind what is queued already; with no MAC filter set it queues
    exactly one item per burst, rejected bursts included. *)
Theorem run_jobs_queue_count (jobs : list BurstJob) (s : Session) :
  Forall (fun j => ~ (job_fs_decim j == 0)%Q) jobs ->
  exists q,
    pktq (fst (run_jobs jobs s)) = pktq s ++ q
    /\ (length q <= length jobs)%nat
    /\ (mac s = None -> length q = length jobs).
Proof.
  intros Hall. revert s. induction Hall as [|j rest Hj _ IH]; intros s.
  - exists []. simpl. rewrite app_nil_r. repeat split; reflexivity.
  - simpl. unfold mbind, cmd_bind.
    destruct (handle_burst_step j s _ (burst_packet_gates j s Hj))
      as (q1 & -> & Hle & Heq).
    destruct (IH (set_pktq (pktq s ++ q1)
                    (set_decoder_state
                       (fst (decode
                               (returned
                                  (gates s (job_chan j) (burst_time j)
                                     (job_burst j) (job_fs_decim j)
                                     (job_cfo j) PHY_1M))
                               (decoder_state s))) s)))
      as (q2 & Hq & Hle2 & Heq2).
    exists (q1 ++ q2). rewrite Hq. simpl. rewrite app_assoc, length_app.
    split; [reflexivity|]. split; [lia|].
    intros Hm. rewrite (Heq Hm), (Heq2 Hm). reflexivity.
Qed.

Lemma buffer_jobs_skipped (t_start fs_decim : Q) (channels_cfo : list Q)
    (detected : Z -> list (Z * Burst)) (channels : list (option Z)) :
  Forall skipped channels ->
  forall i, buffer_jobs t_start fs_decim channels_cfo detected i channels = Ok [].
Proof.
  induction 1 as [|c rest Hc _ IH]; intros i; simpl; [reflexivity|].
  rewrite IH. destruct c as [c'|]; simpl in *; [|reflexivity].
  apply Z.ltb_lt in Hc. rewrite Hc. reflexivity.
Qed.

Lemma capture_loop_skipped (t_start fs_decim : Q) (channels : list (option Z))
    (channels_cfo : list Q) (reads : list Read) :
  Forall skipped channels ->
  forall s,
    let r := capture_loop t_start fs_decim channels channels_cfo reads s in
    pktq (fst r) = pktq s /\ decoder_state (fst r) = decoder_state s.
Proof.
  intros Hskip. induction reads as [|rd rest IH]; intros s;
    [|destruct rd as [| | |detected]; [| | |rewrite capture_loop_chunk]];
    simpl; unfold mbind, cmd_bind, gets, raise; destruct (worker_running s); simpl;
    try (split; reflexivity).
  destruct (snd (channelize s)) as [[]|e]; [|split; reflexivity].
  rewrite (buffer_jobs_skipped _ _ _ _ _ Hskip). simpl.
  apply IH.
Qed.

(** X17: a plan without advertising channels gives nothing: when every plan
    entry is unused or a data channel (below 37), the capture loop queues
    nothing and never calls the decoder, whatever is captured and however
    the loop ends; so does the whole worker of a single-channel session
    tuned to a data channel. *)
Theorem data_channels_are_not_sniffed (t_start : Q) (reads : list Read)
    (s : Session) :
  (forall fs_decim channels channels_cfo,
     Forall skipped channels ->
     let r := capture_loop t_start fs_decim channels channels_cfo reads s in
     pktq (fst r) = pktq s /\ decoder_state (fst r) = decoder_state s)
  /\ (use_channelizer s = false -> chan s < 37 ->
      let r := _recv_worker t_start reads s in
      pktq (fst r) = pktq s /\ decoder_state (fst r) = decoder_state s).
Proof.
  split.
  - intros fs_decim channels channels_cfo Hskip.
    apply capture_loop_skipped. exact Hskip.
  - intros Hw Hc. unfold _recv_worker, mbind, cmd_bind, modify, gets, lift, id.
    cbv beta iota. unfold channel_plan. cbn [use_channelizer set_worker_running].
    rewrite Hw. cbn [mret outcome_ret fst snd].
    assert (Hskip : Forall skipped [Some (chan (set_worker_running true s))]).
    { constructor; [exact Hc|constructor]. }
    destruct (capture_loop_skipped t_start
                (floordiv (fs (set_worker_running true s)) (2 * 4))
                [Some (chan (set_worker_running true s))] [0%Q] reads Hskip
                (set_worker_running true s)) as (Hq & Hd).
    destruct (capture_loop _ _ _ _ _ _) as [s1 [[]|e]]; simpl in *;
      split; assumption.
Qed.

(** Buffers are handled one after the other. *)
Lemma capture_loop_app (t_start fs_decim : Q) (channels : list (option Z))
    (channels_cfo : list Q) (pre tail : list Read) :
  Forall is_chunk pre ->
  forall s,
    capture_loop t_start fs_decim channels channels_cfo (pre ++ tail) s
    = (_ ← capture_loop t_start fs_decim channels channels_cfo pre;
       capture_loop t_start fs_decim channels channels_cfo tail) s.
Proof.
  induction 1 as [|rd pre Hrd _ IH]; intros s.
  - simpl. unfold mbind, cmd_bind, gets.
    destruct (worker_running s) eqn:Hrun; simpl; [reflexivity|].
    destruct tail as [|rd tail]; simpl; unfold mbind, cmd_bind, gets;
      rewrite Hrun; reflexivity.
  - destruct rd as [| | |detected]; try contradiction.
    rewrite <- app_comm_cons. unfold mbind at 1, cmd_bind at 1.
    rewrite !capture_loop_chunk.
    destruct (worker_running s) eqn:Hrun.
    + destruct (snd (channelize s)) as [[]|e]; [|reflexivity].
      destruct (buffer_jobs _ _ _ _ _ _) as [jobs|e]; [|reflexivity].
      destruct (run_jobs jobs s) as [s1 [[]|e]]; [|reflexivity].
      apply IH.
    + destruct tail as [|rd tail]; simpl; unfold mbind, cmd_bind, gets;
        rewrite Hrun; reflexivity.
Qed.

(** X18: the capture loop stops at the first short read or end of file:
    the reads after it are never looked at and nothing, no end marker
    either, is queued for it; an end of file closes the capture file and a
    short read leaves the session as the buffers before it left it. *)
Theorem capture_loop_stops (t_start fs_decim : Q) (channels : list (option Z))
    (channels_cfo : list Q) (pre rest : list Read) (s : Session) :
  Forall is_chunk pre ->
  capture_loop t_start fs_decim channels channels_cfo (pre ++ EndOfFile :: rest) s
  = (_ ← capture_loop t_start fs_decim channels channels_cfo pre;
     ((fun s1 => (if worker_running s1 then set_file false s1 else s1, Ok tt))
        : Cmd unit)) s
  /\ capture_loop t_start fs_decim channels channels_cfo (pre ++ ShortRead :: rest) s
     = capture_loop t_start fs_decim channels channels_cfo pre s.
Proof.
  intros Hpre. rewrite !capture_loop_app by exact Hpre.
  unfold mbind, cmd_bind.
  destruct (capture_loop t_start fs_decim channels channels_cfo pre s)
    as [s1 [[]|e]]; [|split; reflexivity].
  simpl. unfold mbind, cmd_bind, gets.
  destruct (worker_running s1); split; reflexivity.
Qed.

(** X19: the bursts of a buffer that the worker handles are exactly the
    bursts the detectors report on plan entries that are advertising
    channels (37 and above), each with the channel and the correction found
    at its own output index; entries that are unused or data channels
    contribute none. *)
Theorem buffer_jobs_exact (t_start fs_decim : Q) (channels_cfo : list Q)
    (detected : Z -> list (Z * Burst)) (channels : list (option Z))
    (jobs : list BurstJob) :
  buffer_jobs t_start fs_decim channels_cfo detected 0 channels = Ok jobs ->
  forall j,
    In j jobs
    <-> exists (i : nat) (c : Z) (cfo : Q) (sb : Z * Burst),
          channels !! i = Some (Some c) /\ 37 <= c
          /\ getitem channels_cfo (Z.of_nat i) = Ok cfo
          /\ In sb (detected (Z.of_nat i))
          /\ j = job_for t_start fs_decim c cfo sb.
Proof.
  assert (G : forall chs k jobs',
    buffer_jobs t_start fs_decim channels_cfo detected k chs = Ok jobs' ->
    forall j,
      In j jobs'
      <-> exists (i : nat) (c : Z) (cfo : Q) (sb : Z * Burst),
            chs !! i = Some (Some c) /\ 37 <= c
            /\ getitem channels_cfo (k + Z.of_nat i) = Ok cfo
            /\ In sb (detected (k + Z.of_nat i))
            /\ j = job_for t_start fs_decim c cfo sb).
  { induction chs as [|c0 rest IH]; intros k jobs' Hrun j.
    - simpl in Hrun. injection Hrun as <-. split; [intros []|].
      intros (i & c & cfo & sb & Hi & _). rewrite lookup_nil in Hi. discriminate.
    - simpl in Hrun. unfold mbind, outcome_bind, mret, outcome_ret in Hrun.
      destruct (match c0 with
                | Some c' =>
                    if c' <? 37 then Ok []
                    else
                      match getitem channels_cfo k with
                      | Ok cfo =>
                          Ok (map (fun sb : Z * Burst =>
                                     {| job_chan := c'; job_t_start := t_start;
                                        job_start_idx := fst sb;
                                        job_burst := snd sb;
                                        job_fs_decim := fs_decim;
                                        job_cfo := cfo |})
                                (detected k))
                      | Raised e => Raised e
                      end
                | None => Ok []
                end) as [here|] eqn:Hhere; [|discriminate].
      destruct (buffer_jobs t_start fs_decim channels_cfo detected (k + 1) rest)
        as [later|] eqn:Hlater; [|discriminate].
      injection Hrun as <-. rewrite in_app_iff, (IH (k + 1) later Hlater j).
      split.
      + intros [Hin|(i & c & cfo & sb & Hi & Hc & Hcfo & Hsb & ->)].
        * destruct c0 as [c'|]; [|injection Hhere as <-; destruct Hin].
          destruct (Z.ltb_spec c' 37); [injection Hhere as <-; destruct Hin|].
          destruct (getitem channels_cfo k) as [cfo|] eqn:Hcfo; [|discriminate].
          injection Hhere as <-. apply in_map_iff in Hin as (sb & <- & Hsb).
          exists 0%nat, c', cfo, sb. rewrite Z.add_0_r.
          repeat split; assumption.
        * exists (S i), c, cfo, sb.
          replace (k + Z.of_nat (S i)) with (k + 1 + Z.of_nat i) by lia.
          repeat split; assumption.
      + intros (i & c & cfo & sb & Hi & Hc & Hcfo & Hsb & ->).
        destruct i as [|i].
        * left. simpl in Hi. injection Hi as ->. rewrite Z.add_0_r in Hcfo, Hsb.
          destruct (Z.ltb_spec c 37); [lia|]. rewrite Hcfo in Hhere.
          injection Hhere as <-. apply in_map_iff. exists sb.
          split; [reflexivity|exact Hsb].
        * right. exists i, c, cfo, sb.
          replace (k + 1 + Z.of_nat i) with (k + Z.of_nat (S i)) by lia.
          repeat split; assumption. }
  intros Hrun j. rewrite (G channels 0 jobs Hrun j). reflexivity.
Qed.

End MoreStreaming.

Section MoreLifecycle.

Context `{Env : Collaborators}.

Lemma setitem_length {A} (l l' : list A) (i : Z) (v : A) :
  setitem l i v = Ok l' -> length l' = length l.
Proof.
  unfold setitem. destruct (position l i); [|discriminate].
  intros [= <-]. apply length_insert.
Qed.

Lemma plan_step_lengths (self : Session) (n : Z) (err : Q)
    (st st' : list (option Z) * list Q) (r : Z) :
  plan_step self n err st r = Ok st' ->
  length (fst st') = length (fst st) /\ length (snd st') = length (snd st).
Proof.
  unfold plan_step. destruct ((0 <=? _) && (_ <? 40)).
  - unfold mbind, outcome_bind, mret, outcome_ret.
    destruct (setitem (fst st) _ _) as [chs|] eqn:H1; [|discriminate].
    destruct (setitem (snd st) _ _) as [cfos|] eqn:H2; [|discriminate].
    intros [= <-]. simpl. split; eapply setitem_length; eassumption.
  - intros [= <-]. split; reflexivity.
Qed.

Lemma plan_loop_lengths (self : Session) (n : Z) (err : Q) (rs : list Z) :
  forall st st',
    for_each (plan_step self n err) rs st = Ok st' ->
    length (fst st') = length (fst st) /\ length (snd st') = length (snd st).
Proof.
  induction rs as [|r rs IH]; intros st st'; simpl.
  - intros [= <-]. split; reflexivity.
  - unfold mbind, outcome_bind.
    destruct (plan_step self n err st r) as [st1|] eqn:H1; [|discriminate].
    intros H2. destruct (plan_step_lengths _ _ _ _ _ _ H1) as [A1 A2].
    destruct (IH _ _ H2) as [B1 B2]. split; congruence.
Qed.

Lemma int_small (x : Q) : (0 <= x)%Q -> (x < 1)%Q -> int x = 0.
Proof.
  unfold Qle, Qlt, int. destruct x as [a b]. simpl. intros H0 H1.
  apply Z.quot_small. lia.
Qed.

Lemma num_channels_zero_rate (x : Q) : (x == 0)%Q -> num_channels_of x = 0.
Proof.
  intros Hx. unfold num_channels_of. apply int_small.
  - rewrite Hx. vm_compute. discriminate.
  - rewrite Hx. vm_compute. reflexivity.
Qed.

(** X20: a plan, once built, serves every buffer: it has one correction
    per channel, so that [channels_cfo[i]] on line 185 is there for every
    index [i] of the plan; and with the channelizer the decimated rate, by
    which line 190 divides, is not zero. *)
Theorem plan_serves_every_buffer (s : Session)
    (plan : Q * (list (option Z) * list Q)) :
  channel_plan s = Ok plan ->
  length (fst (snd plan)) = length (snd (snd plan))
  /\ (forall (i : nat) (c : option Z),
        fst (snd plan) !! i = Some c ->
        exists cfo, getitem (snd (snd plan)) (Z.of_nat i) = Ok cfo)
  /\ (use_channelizer s = true -> ~ (fst plan == 0)%Q).
Proof.
  intros Hplan.
  assert (Hshape : length (fst (snd plan)) = length (snd (snd plan))
                   /\ (use_channelizer s = true -> ~ (fst plan == 0)%Q)).
  { revert Hplan. unfold channel_plan. destruct (use_channelizer s).
    - unfold div.
      destruct (Qeq_bool (inject_Z (num_channels_of (fs s))) 0) eqn:En;
        [discriminate|].
      unfold mbind, outcome_bind, mret, outcome_ret.
      destruct (for_each _ _ _) as [st|] eqn:Hloop; [|discriminate].
      intros [= <-]. simpl.
      destruct (plan_loop_lengths _ _ _ _ _ _ Hloop) as [A1 A2]. simpl in A1, A2.
      rewrite !length_replicate in *. split; [congruence|].
      intros _ Hzero.
      assert (Hn : ~ (inject_Z (num_channels_of (fs s)) == 0)%Q).
      { intros H. apply Qeq_bool_iff in H. congruence. }
      assert (Hfs : (fs s == 0)%Q).
      { unfold Qdiv in Hzero. apply Qmult_integral in Hzero as [H|H]; [exact H|].
        exfalso. apply Hn.
        rewrite <- (Qinv_involutive (inject_Z (num_channels_of (fs s)))).
        rewrite H. reflexivity. }
      apply Hn. rewrite (num_channels_zero_rate _ Hfs). reflexivity.
    - intros [= <-]. simpl. split; [reflexivity|discriminate]. }
  destruct Hshape as [Hlen Hrate].
  split; [exact Hlen|]. split; [|exact Hrate].
  intros i c Hc. apply lookup_lt_Some in Hc.
  destruct (lookup_lt_is_Some_2 (snd (snd plan)) i) as [cfo Hcfo]; [lia|].
  exists cfo. apply getitem_lookup. exact Hcfo.
Qed.

(** X21: [cancel_recv] leaves the configuration and the device alone and
    keeps what is queued in place: it only adds at the tail of the queue.
    The capture file is not part of this: the thread that is joined closes
    it when its last read finds the end of the file. *)
Theorem cancel_recv_frame (s : Session) :
  let s' := fst (cancel_recv s) in
  chan s' = chan s /\ aa s' = aa s /\ phy s' = phy s
  /\ crci_rev s' = crci_rev s /\ rssi_min s' = rssi_min s
  /\ mac s' = mac s /\ validate_crc s' = validate_crc s
  /\ sdr s' = sdr s /\ fs s' = fs s
  /\ gain s' = gain s /\ use_channelizer s' = use_channelizer s
  /\ exists q, pktq s' = pktq s ++ q.
Proof.
  unfold cancel_recv, mbind, cmd_bind, gets, modify, raise, pass, put.
  cbv beta iota.
  destruct (worker_running s).
  - cbn [worker set_worker_running]. destruct (worker s) as [t|].
    + unfold join, thread_rest. destruct (thread_eof t).
      * simpl. repeat split. exists [PyNone]. reflexivity.
      * destruct (run_jobs_frame (thread_pending t) (set_worker_running false s))
          as (ds & q & Hq).
        destruct (run_jobs (thread_pending t) (set_worker_running false s))
          as [s1 [[]|e]]; simpl in Hq; subst s1; simpl; repeat split;
          eexists; rewrite <- app_assoc; reflexivity.
    + simpl. repeat split. exists []. rewrite app_nil_r. reflexivity.
  - simpl. repeat split. exists []. rewrite app_nil_r. reflexivity.
Qed.

End MoreLifecycle.

(** * More runs on the bench *)

Lemma bench_mac_request_accepted :
  accepted_by_setup (Env := Bench.env) Bench.single Bench.mac_request.
Proof.
  unfold accepted_by_setup. simpl.
  split; [apply (bool_decide_unpack (1 ∈ [0; 1; 2])); vm_compute; exact I|].
  split; [right; lia|]. repeat split.
Defined.

Lemma bench_mac_request_target (b : list byte) :
  arg_targ_mac Bench.mac_request = Some b -> b <> [] -> length b = 6%nat.
Proof. intros [= <-] _. reflexivity. Defined.

Lemma setup_sniffer_accepts_iff_witness :
  snd (setup_sniffer (Env := Bench.env) Bench.mac_request Bench.single) = Ok tt.
Proof.
  apply (setup_sniffer_accepts_iff (Env := Bench.env) Bench.single Bench.mac_request).
  - simpl. lia.
  - split; [exact bench_mac_request_accepted|exact bench_mac_request_target].
Defined.

Lemma setup_sniffer_commits_witness :
  exists s',
    setup_sniffer (Env := Bench.env) Bench.mac_request Bench.single = (s', Ok tt)
    /\ chan s' = 38 /\ rssi_min s' = -60
    /\ mac s' = Some [x01; x02; x03; x04; x05; x06].
Proof.
  destruct (setup_sniffer_commits (Env := Bench.env) Bench.single Bench.mac_request)
    as (s' & Hrun & Hchan & _ & _ & _ & Hrssi & Hmac & _).
  - simpl. lia.
  - exact bench_mac_request_accepted.
  - exact bench_mac_request_target.
  - exists s'. repeat split; assumption.
Defined.

Lemma setup_sniffer_twice_witness :
  setup_sniffer (Env := Bench.env) Bench.mac_request
    (fst (setup_sniffer (Env := Bench.env) Bench.mac_request Bench.single))
  = (fst (setup_sniffer (Env := Bench.env) Bench.mac_request Bench.single), Ok tt).
Proof.
  apply (setup_sniffer_twice (Env := Bench.env) Bench.single).
  - simpl. lia.
  - reflexivity.
Defined.

Lemma setup_sniffer_wideband_ignores_chan_witness :
  setup_sniffer (Env := Bench.env) (with_arg_chan 5 Bench.mac_request) init_file
  = setup_sniffer (Env := Bench.env) Bench.mac_request init_file
  /\ chan (fst (setup_sniffer (Env := Bench.env) Bench.mac_request init_file)) = 17.
Proof.
  destruct (setup_sniffer_wideband_ignores_chan (Env := Bench.env) init_file
              Bench.mac_request 5 eq_refl) as [Hsame Hchan].
  split; [exact Hsame|]. apply Hchan. simpl. lia.
Defined.

Lemma bench_single_config_ok : config_ok (Env := Bench.env) Bench.single.
Proof.
  unfold config_ok, PHY_CODED_S2. simpl. unfold PHY_1M.
  split; [lia|]. split; [lia|]. left. reflexivity.
Defined.

Lemma config_ok_preserved_witness :
  config_ok (Env := Bench.env)
    (fst (setup_sniffer (Env := Bench.env) Bench.short_mac_request Bench.single)).
Proof.
  destruct (config_ok_preserved (Env := Bench.env) Bench.single
              bench_single_config_ok) as (_ & _ & _ & _ & Hsetup).
  apply Hsetup.
Defined.

Lemma bench_with_device_tuned : tuned (Env := Bench.env) Bench.with_device.
Proof. intros f [= <-]. reflexivity. Defined.

Lemma tuned_preserved_witness :
  sdr (fst (cmd_chan_aa_phy (Env := Bench.env) 38 0x8E89BED6 PHY_1M 0x555555
              Bench.with_device))
  = Some (freq_from_chan (Env := Bench.env) 38).
Proof.
  destruct (tuned_preserved (Env := Bench.env) Bench.with_device)
    as (Hchan & _).
  - simpl. lia.
  - exact bench_with_device_tuned.
  - pose proof (Hchan 38 0x8E89BED6 PHY_1M 0x555555) as Ht.
    unfold tuned in Ht.
    destruct (sdr (fst (cmd_chan_aa_phy 38 0x8E89BED6 PHY_1M 0x555555
                          Bench.with_device))) as [f|] eqn:Hf.
    + rewrite (Ht f eq_refl). reflexivity.
    + vm_compute in Hf. discriminate Hf.
Defined.

Lemma chan_from_freq_from_chan_witness :
  chan_from_freq (Env := Bench.env) (freq_from_chan (Env := Bench.env) 38) = 38.
Proof.
  apply (chan_from_freq_from_chan (Env := Bench.env) 38). reflexivity.
Defined.

Lemma init_establishes_witness :
  exists s, __init__ (Env := Bench.env) Bench.bench_host "rfnm:full" = Ok s
            /\ idle s /\ config_ok s /\ tuned s /\ chan s = 17.
Proof.
  eexists. split; [reflexivity|].
  destruct (init_establishes (Env := Bench.env) Bench.bench_host "rfnm:full" _
              eq_refl) as (Hidle & Hok & Htuned & _).
  split; [exact Hidle|]. split; [exact Hok|]. split; [exact Htuned|].
  reflexivity.
Defined.

Lemma produced_packet_consistent_witness :
  rssi_min (Env := Bench.env) Bench.single <= pkt_rssi Bench.first_packet
  /\ pkt_chan Bench.first_packet = 37
  /\ pkt_crc_err Bench.first_packet = false.
Proof.
  destruct (produced_packet_consistent (Env := Bench.env) Bench.single 37 0%Q
              Bench.good_burst 2e6%Q 0%Q PHY_1M Bench.first_packet)
    as (Hrssi & _ & Hchan & _ & _ & _ & _ & Hvalid).
  - vm_compute. reflexivity.
  - split; [exact Hrssi|]. split; [exact Hchan|]. apply Hvalid. reflexivity.
Defined.

Lemma produced_packet_ranges_witness :
  0 <= pkt_ts Bench.first_packet < 2 ^ 30
  /\ 2 <= pkt_len Bench.first_packet <= 257
  /\ 0 <= pkt_crc_rev Bench.first_packet < 2 ^ 24.
Proof.
  destruct (produced_packet_ranges (Env := Bench.env) Bench.single 37 0%Q
              Bench.good_burst 2e6%Q 0%Q PHY_1M Bench.first_packet)
    as (Hts & _ & Hlen & _ & Hcrc).
  - vm_compute. reflexivity.
  - split; [exact Hts|]. split; [exact Hlen|exact Hcrc].
Defined.

Lemma lower_floor_keeps_packets_witness :
  process_burst (Env := Bench.env) (set_rssi_min (-128) Bench.single) 37 0%Q
    Bench.good_burst 2e6%Q 0%Q PHY_1M = Ok (Some Bench.first_packet).
Proof.
  apply (lower_floor_keeps_packets (Env := Bench.env) Bench.single 37 0%Q
           Bench.good_burst 2e6%Q 0%Q PHY_1M Bench.first_packet (-60) (-128)).
  - lia.
  - vm_compute. reflexivity.
Defined.

Lemma decoder_sees_every_burst_witness :
  decoder_state (fst (handle_burst (Env := Bench.env)
                        (Bench.job_of Bench.good_burst) Bench.filtering))
  = 1%nat
  /\ decoder_state (fst (handle_burst (Env := Bench.env)
                           (Bench.job_of Bench.noise_burst) Bench.single))
     = 0%nat.
Proof.
  destruct (decoder_sees_every_burst (Env := Bench.env)
              (Bench.job_of Bench.good_burst) Bench.filtering
              (Some Bench.good_packet)) as [Hgood _].
  - vm_compute. reflexivity.
  - destruct (decoder_sees_every_burst (Env := Bench.env)
                (Bench.job_of Bench.noise_burst) Bench.single None)
      as [Hnoise _].
    + vm_compute. reflexivity.
    + split; [rewrite Hgood|rewrite Hnoise]; reflexivity.
Defined.

Lemma run_jobs_queue_count_witness :
  exists q,
    pktq (fst (run_jobs (Env := Bench.env)
                 [Bench.job_of Bench.noise_burst; Bench.job_of Bench.good_burst]
                 Bench.single))
    = pktq (Env := Bench.env) Bench.single ++ q
    /\ length q = 2%nat.
Proof.
  destruct (run_jobs_queue_count (Env := Bench.env)
              [Bench.job_of Bench.noise_burst; Bench.job_of Bench.good_burst]
              Bench.single) as (q & Hq & _ & Hexact).
  - repeat constructor; intros H; vm_compute in H; discriminate H.
  - exists q. split; [exact Hq|]. apply Hexact. reflexivity.
Defined.

Lemma data_channels_are_not_sniffed_witness :
  pktq (fst (_recv_worker (Env := Bench.env) 0%Q
               [Chunk Bench.one_burst; EndOfFile] Bench.on_data_channel))
  = [].
Proof.
  destruct (data_channels_are_not_sniffed (Env := Bench.env) 0%Q
              [Chunk Bench.one_burst; EndOfFile] Bench.on_data_channel)
    as [_ Hsingle].
  destruct (Hsingle eq_refl) as (Hq & _).
  - simpl. lia.
  - exact Hq.
Defined.

Lemma capture_loop_stops_witness :
  capture_loop (Env := Bench.env) 0%Q 2e6%Q [Some 37] [0%Q]
    ([Chunk Bench.one_burst] ++ EndOfFile :: [Chunk Bench.one_burst])
    Bench.capturing
  = capture_loop (Env := Bench.env) 0%Q 2e6%Q [Some 37] [0%Q]
      [Chunk Bench.one_burst; EndOfFile] Bench.capturing.
Proof.
  destruct (capture_loop_stops (Env := Bench.env) 0%Q 2e6%Q [Some 37] [0%Q]
              [Chunk Bench.one_burst] [Chunk Bench.one_burst] Bench.capturing)
    as [Heof _].
  - constructor; [exact I|constructor].
  - rewrite Heof. reflexivity.
Defined.

Lemma buffer_jobs_exact_witness :
  exists (i : nat) (c : Z) (cfo : Q) (sb : Z * @Burst Bench.env),
    [Some 37] !! i = Some (Some c) /\ 37 <= c
    /\ getitem [0%Q] (Z.of_nat i) = Ok cfo
    /\ In sb (Bench.one_burst (Z.of_nat i))
    /\ Bench.job_of Bench.good_burst
       = job_for (Env := Bench.env) 0%Q 2e6%Q c cfo sb.
Proof.
  apply (buffer_jobs_exact (Env := Bench.env) 0%Q 2e6%Q [0%Q] Bench.one_burst
           [Some 37] [Bench.job_of Bench.good_burst] eq_refl).
  left. reflexivity.
Defined.

Lemma plan_serves_every_buffer_witness :
  exists plan,
    channel_plan (Env := Bench.env) init_file = Ok plan
    /\ length (fst (snd plan)) = length (snd (snd plan))
    /\ ~ (fst plan == 0)%Q.
Proof.
  destruct (channel_plan (Env := Bench.env) init_file) as [plan|e] eqn:Hplan.
  - destruct (plan_serves_every_buffer (Env := Bench.env) init_file plan Hplan)
      as (Hlen & _ & Hrate).
    exists plan. split; [reflexivity|]. split; [exact Hlen|].
    apply Hrate. reflexivity.
  - vm_compute in Hplan. discriminate Hplan.
Defined.
